(** * NSMBU Wave Simulator: the wave shading model and its configuration

    A shallow embedding of [main.py]: the fragment shader (GLSL, embedded in
    the Python source as [FRAGMENT_SHADER]), the [WaveConfig] object, the
    animation tick of [RenderWidget] and the edits of [SettingsWidget].

    Numbers.  Python's [int]/[float] and GLSL's [float] are modelled as real
    numbers ([R]): every statement below is a statement in exact arithmetic,
    rounding is outside the model.  [math.pi] is [PI].  The one exception is
    the module [Binary64], which runs the additions of the animation tick on
    binary64 floats, as Python does, to show where the two differ.

    Objects.  A Python object is its attribute dictionary, a finite map from
    attribute names to values; [getattr] of a missing attribute, or a value of
    the wrong shape handed to [glUniform1f]/[glUniform3f], raises, which is
    [None] here. *)

From Stdlib Require Import Reals Lra.
From Stdlib Require Import PrimFloat FloatOps SpecFloat.
From stdpp Require Import gmap strings.

Local Open Scope R_scope.

(** ** GLSL [vec3] and its componentwise operators *)

Record vec3 : Type := Vec3 { vx : R; vy : R; vz : R }.

Definition vadd (a b : vec3) : vec3 :=
  Vec3 (vx a + vx b) (vy a + vy b) (vz a + vz b).

Definition vsub (a b : vec3) : vec3 :=
  Vec3 (vx a - vx b) (vy a - vy b) (vz a - vz b).

(** [vec3 * float] *)
Definition vscale (a : vec3) (v : R) : vec3 :=
  Vec3 (vx a * v) (vy a * v) (vz a * v).

(** Every component lies in [0,1]. *)
Definition unit_color (c : vec3) : Prop :=
  0 <= vx c <= 1 /\ 0 <= vy c <= 1 /\ 0 <= vz c <= 1.

(** ** The fragment shader

    The shader's [#define PI] is not used by its code; the factor [PI / 360]
    is applied by [paintGL] below, before the values reach the uniforms. *)

Module FRAGMENT_SHADER.

(** The [uniform] declarations (lines 25-36). *)
Record Uniforms : Type := {
  baseHeight : R;
  waveHeight1 : R;
  waveHeight2 : R;
  waveWidth1 : R;
  waveWidth2 : R;
  waveOffset1 : R;
  waveOffset2 : R;
  borderWidth : R;
  borderGradient : R;
  backgroundColor : vec3;
  waveColor : vec3;
  borderColor : vec3
}.

(** [vec3 merge(vec3 a, vec3 b, float v)] *)
Definition merge (a b : vec3) (v : R) : vec3 :=
  let diff := vsub b a in
  vadd a (vscale diff v).

(** GLSL leaves the result of a division by zero unspecified.  The model
    makes the division partial: [fdiv a b] has no result when [b] is zero,
    so a run of [main] that divides by zero has no result either. *)
Definition fdiv (a b : R) : option R :=
  if Req_dec_T b 0 then None else Some (a / b).

(** Lines 48-50 of [main]: the wave height at pixel column [x]. *)
Definition wave_height (u : Uniforms) (x : R) : R :=
  let height := baseHeight u in
  let height := height + (1 + sin (x * waveWidth1 u + waveOffset1 u)) * waveHeight1 u in
  let height := height + (1 + sin (x * waveWidth2 u + waveOffset2 u)) * waveHeight2 u in
  height.

(** [void main()]: the value written to [color] for the fragment at
    [gl_FragCoord = (x, y)]. *)
Definition main (u : Uniforms) (gl_FragCoord : R * R) : option vec3 :=
  let x := fst gl_FragCoord in
  let y := snd gl_FragCoord in
  let height := wave_height u x in
  if Rlt_dec y height then
    if Rgt_dec y (height - borderWidth u) then
      Some (borderColor u)
    else if Rgt_dec y (height - borderWidth u - borderGradient u) then
      value ← fdiv (y - (height - borderWidth u - borderGradient u)) (borderGradient u);
      Some (merge (waveColor u) (borderColor u) value)
    else
      Some (waveColor u)
  else
    Some (backgroundColor u).

End FRAGMENT_SHADER.

(** The colour of row [y] by the half-open rule of the specification
    (section 4.1, step 2), written from its words and not from the shader;
    [main] is compared with it below. *)
Definition spec_shade (u : FRAGMENT_SHADER.Uniforms) (height y : R) : vec3 :=
  let borderWidth := FRAGMENT_SHADER.borderWidth u in
  let borderGradient := FRAGMENT_SHADER.borderGradient u in
  let waveColor := FRAGMENT_SHADER.waveColor u in
  let borderColor := FRAGMENT_SHADER.borderColor u in
  if Rge_dec y height then
    FRAGMENT_SHADER.backgroundColor u
  else if Rle_dec (height - borderWidth) y then
    borderColor
  else if Rle_dec (height - borderWidth - borderGradient) y then
    let t := (y - (height - borderWidth - borderGradient)) / borderGradient in
    vadd waveColor (vscale (vsub borderColor waveColor) t)
  else
    waveColor.

(** ** Python values and objects *)

(** The values stored in the attributes of a [WaveConfig]: a number, or a
    tuple [(r, g, b)]. *)
Inductive value : Type :=
  | Num (r : R)
  | Color (c : vec3).

Definition as_float (v : value) : option R :=
  match v with Num r => Some r | Color _ => None end.

Definition as_color (v : value) : option vec3 :=
  match v with Color c => Some c | Num _ => None end.

(** [WaveConfig.reset]: twelve attribute assignments on [self]. *)
Definition reset (self : gmap string value) : gmap string value :=
  let self := <["baseHeight" := Num 150]> self in
  let self := <["waveHeight1" := Num 60]> self in
  let self := <["waveHeight2" := Num 4]> self in
  let self := <["waveWidth1" := Num 2.5]> self in
  let self := <["waveWidth2" := Num 16]> self in
  let self := <["waveSpeed1" := Num 2.6]> self in
  let self := <["waveSpeed2" := Num 32]> self in
  let self := <["borderWidth" := Num 5]> self in
  let self := <["borderGradient" := Num 20]> self in
  let self := <["backgroundColor" := Color (Vec3 0 0 0)]> self in
  let self := <["waveColor" := Color (Vec3 1 0 0)]> self in
  let self := <["borderColor" := Color (Vec3 1 0.8 0)]> self in
  self.

(** [WaveConfig.__init__]: a fresh object, then [reset]. *)
Definition WaveConfig : gmap string value := reset ∅.

(** ** The window

    [MainWindow.__init__] creates one [WaveConfig] and hands the same object
    to the [RenderWidget] and to the [SettingsWidget]: [config] is that one
    shared object.  [waveOffset1] and [waveOffset2] are the render widget's
    phase offsets; [updates] counts the calls of the widget's [update()]
    (redraw requests), to which [SettingsWidget.valueChanged] is connected. *)
Record MainWindow : Type := {
  config : gmap string value;
  waveOffset1 : R;
  waveOffset2 : R;
  updates : nat
}.

(** [MainWindow.__init__] with [RenderWidget.__init__]. *)
Definition MainWindow_init : MainWindow :=
  {| config := WaveConfig; waveOffset1 := 0; waveOffset2 := 0; updates := 0%nat |}.

(** [QWidget.update()] *)
Definition update (w : MainWindow) : MainWindow :=
  {| config := config w; waveOffset1 := waveOffset1 w;
     waveOffset2 := waveOffset2 w; updates := S (updates w) |}.

(** [setattr(self.config, name, v)] *)
Definition setattr (name : string) (v : value) (w : MainWindow) : MainWindow :=
  {| config := <[name := v]> (config w); waveOffset1 := waveOffset1 w;
     waveOffset2 := waveOffset2 w; updates := updates w |}.

(** [RenderWidget.updateWaves], the timer's slot. *)
Definition updateWaves (w : MainWindow) : option MainWindow :=
  waveSpeed1 ← config w !! "waveSpeed1" ≫= as_float;
  waveSpeed2 ← config w !! "waveSpeed2" ≫= as_float;
  Some (update {| config := config w;
                  waveOffset1 := waveOffset1 w + waveSpeed1;
                  waveOffset2 := waveOffset2 w + waveSpeed2;
                  updates := updates w |}).

(** [n] timer ticks in a row. *)
Fixpoint ticks (n : nat) (w : MainWindow) : option MainWindow :=
  match n with
  | O => Some w
  | S n' => w' ← updateWaves w; ticks n' w'
  end.

(** [RenderWidget.paintGL]: the uniforms handed to the shader program. *)
Definition paintGL (w : MainWindow) : option FRAGMENT_SHADER.Uniforms :=
  baseHeight ← config w !! "baseHeight" ≫= as_float;
  waveHeight1 ← config w !! "waveHeight1" ≫= as_float;
  waveHeight2 ← config w !! "waveHeight2" ≫= as_float;
  waveWidth1 ← config w !! "waveWidth1" ≫= as_float;
  waveWidth2 ← config w !! "waveWidth2" ≫= as_float;
  borderWidth ← config w !! "borderWidth" ≫= as_float;
  borderGradient ← config w !! "borderGradient" ≫= as_float;
  backgroundColor ← config w !! "backgroundColor" ≫= as_color;
  waveColor ← config w !! "waveColor" ≫= as_color;
  borderColor ← config w !! "borderColor" ≫= as_color;
  Some {| FRAGMENT_SHADER.baseHeight := baseHeight;
          FRAGMENT_SHADER.waveHeight1 := waveHeight1;
          FRAGMENT_SHADER.waveHeight2 := waveHeight2;
          FRAGMENT_SHADER.waveWidth1 := waveWidth1 * PI / 360;
          FRAGMENT_SHADER.waveWidth2 := waveWidth2 * PI / 360;
          FRAGMENT_SHADER.waveOffset1 := waveOffset1 w * PI / 360;
          FRAGMENT_SHADER.waveOffset2 := waveOffset2 w * PI / 360;
          FRAGMENT_SHADER.borderWidth := borderWidth;
          FRAGMENT_SHADER.borderGradient := borderGradient;
          FRAGMENT_SHADER.backgroundColor := backgroundColor;
          FRAGMENT_SHADER.waveColor := waveColor;
          FRAGMENT_SHADER.borderColor := borderColor |}.

(** [glDrawArrays] runs the shader on every fragment of the viewport: the
    colour of the pixel at [frag] in the frame painted in state [w]. *)
Definition pixel (w : MainWindow) (frag : R * R) : option vec3 :=
  u ← paintGL w; FRAGMENT_SHADER.main u frag.

(** [SettingsWidget.changeValue]; [valueChanged.emit()] calls its one slot,
    the render widget's [update]. *)
Definition changeValue (name : string) (v : R) (w : MainWindow) : MainWindow :=
  update (setattr name (Num v) w).

(** [SettingsWidget.changeColor] *)
Definition changeColor (name : string) (color : vec3) (w : MainWindow) : MainWindow :=
  update (setattr name (Color color) w).

(** ** The settings panel

    One row of [SettingsWidget.settings]: label, attribute name, range,
    decimals and step of the spin box. *)
Record setting : Type := {
  label : string;
  attr : string;
  minimum : R;
  maximum : R;
  decimals : nat;
  singleStep : R
}.

Definition settings : list setting := [
  Build_setting "Base height" "baseHeight" (-100) 300 1 1;
  Build_setting "Wave height 1" "waveHeight1" (-200) 200 1 1;
  Build_setting "Wave height 2" "waveHeight2" (-200) 200 1 1;
  Build_setting "Wave width 1" "waveWidth1" (-30) 30 2 0.1;
  Build_setting "Wave width 2" "waveWidth2" (-30) 30 2 0.1;
  Build_setting "Wave speed 1" "waveSpeed1" (-100) 100 1 1;
  Build_setting "Wave speed 2" "waveSpeed2" (-100) 100 1 1;
  Build_setting "Border width" "borderWidth" 0 30 1 1;
  Build_setting "Border gradient" "borderGradient" 0 30 1 1
].

(** [SettingsWidget.colors]: label and attribute name. *)
Definition colors : list (string * string) := [
  ("Background color", "backgroundColor");
  ("Wave color", "waveColor");
  ("Border color", "borderColor")
].

(** The shape the widgets rely on: every attribute of [settings] holds a
    number and every attribute of [colors] a colour. *)
Definition well_formed (cfg : gmap string value) : Prop :=
  Forall (fun s => exists r : R, cfg !! attr s = Some (Num r)) settings /\
  Forall (fun c => exists col : vec3, cfg !! c.2 = Some (Color col)) colors.

(** ** The rows of the four bands

    The bands of a pixel column whose wave height is [height], delimited the
    way the comparisons of [main] delimit them. *)

Inductive band : Type := Background | Border | Blend | Wave.

Definition band_rows (u : FRAGMENT_SHADER.Uniforms) (height : R) (b : band) (y : R) : Prop :=
  let top := height - FRAGMENT_SHADER.borderWidth u in
  let bottom := top - FRAGMENT_SHADER.borderGradient u in
  match b with
  | Background => y >= height
  | Border => top < y < height
  | Blend => bottom < y <= top /\ y < height
  | Wave => y <= bottom /\ y < height
  end.

Definition band_color (u : FRAGMENT_SHADER.Uniforms) (height y : R) (b : band) : vec3 :=
  let bottom := height - FRAGMENT_SHADER.borderWidth u - FRAGMENT_SHADER.borderGradient u in
  match b with
  | Background => FRAGMENT_SHADER.backgroundColor u
  | Border => FRAGMENT_SHADER.borderColor u
  | Blend =>
      FRAGMENT_SHADER.merge (FRAGMENT_SHADER.waveColor u) (FRAGMENT_SHADER.borderColor u)
        ((y - bottom) / FRAGMENT_SHADER.borderGradient u)
  | Wave => FRAGMENT_SHADER.waveColor u
  end.

(** ** Two concrete windows

    [default_uniforms] is what [paintGL] hands to the shader for the initial
    window.  [flat_window] is the initial window after four edits in the
    settings panel: both wave heights 0, base height 150.5, border gradient
    0; its wave is flat, of height 150.5 in every column, and the centre of
    the pixel in column 0, row 145 is the fragment (0.5, 145.5). *)

Definition default_uniforms : FRAGMENT_SHADER.Uniforms :=
  {| FRAGMENT_SHADER.baseHeight := 150;
     FRAGMENT_SHADER.waveHeight1 := 60;
     FRAGMENT_SHADER.waveHeight2 := 4;
     FRAGMENT_SHADER.waveWidth1 := 2.5 * PI / 360;
     FRAGMENT_SHADER.waveWidth2 := 16 * PI / 360;
     FRAGMENT_SHADER.waveOffset1 := 0 * PI / 360;
     FRAGMENT_SHADER.waveOffset2 := 0 * PI / 360;
     FRAGMENT_SHADER.borderWidth := 5;
     FRAGMENT_SHADER.borderGradient := 20;
     FRAGMENT_SHADER.backgroundColor := Vec3 0 0 0;
     FRAGMENT_SHADER.waveColor := Vec3 1 0 0;
     FRAGMENT_SHADER.borderColor := Vec3 1 0.8 0 |}.

Definition flat_window : MainWindow :=
  changeValue "borderGradient" 0
    (changeValue "baseHeight" 150.5
       (changeValue "waveHeight2" 0
          (changeValue "waveHeight1" 0 MainWindow_init))).

Definition flat_uniforms : FRAGMENT_SHADER.Uniforms :=
  {| FRAGMENT_SHADER.baseHeight := 150.5;
     FRAGMENT_SHADER.waveHeight1 := 0;
     FRAGMENT_SHADER.waveHeight2 := 0;
     FRAGMENT_SHADER.waveWidth1 := 2.5 * PI / 360;
     FRAGMENT_SHADER.waveWidth2 := 16 * PI / 360;
     FRAGMENT_SHADER.waveOffset1 := 0 * PI / 360;
     FRAGMENT_SHADER.waveOffset2 := 0 * PI / 360;
     FRAGMENT_SHADER.borderWidth := 5;
     FRAGMENT_SHADER.borderGradient := 0;
     FRAGMENT_SHADER.backgroundColor := Vec3 0 0 0;
     FRAGMENT_SHADER.waveColor := Vec3 1 0 0;
     FRAGMENT_SHADER.borderColor := Vec3 1 0.8 0 |}.

(** * Properties of the shader *)

(** ** The picker button and the event loop *)

(** [ColorPickerButton.handleClicked] of the button made for the colour
    attribute [name].  [picked] is the answer of [QColorDialog.getColor]:
    [None] when the colour is not valid (the dialog was cancelled), else its
    [(redF, greenF, blueF)].  The emitted [valueChanged] reaches
    [changeColor] through the lambda of [SettingsWidget.__init__].  The
    button's own [color] and style sheet feed the display and the next
    dialog only; they are not part of the state. *)
Definition handleClicked (name : string) (picked : option vec3) (w : MainWindow) : MainWindow :=
  match picked with
  | Some color => changeColor name color w
  | None => w
  end.

(** What the event loop delivers: the timer's [timeout], the [valueChanged]
    of the spin box made for row [s] of [settings], a click on the button
    made for row [c] of [colors] together with the dialog's answer. *)
Inductive event : Type :=
  | timeout
  | valueChanged (s : setting) (v : R)
  | clicked (c : string * string) (picked : option vec3).

(** The slot connected to each signal. *)
Definition dispatch (e : event) (w : MainWindow) : option MainWindow :=
  match e with
  | timeout => updateWaves w
  | valueChanged s v => Some (changeValue (attr s) v w)
  | clicked c picked => Some (handleClicked c.2 picked w)
  end.

(** [app.exec()] on a finite run of events; a slot that raises ends it. *)
Fixpoint exec (events : list event) (w : MainWindow) : option MainWindow :=
  match events with
  | [] => Some w
  | e :: rest => w' ← dispatch e w; exec rest w'
  end.

(** The widgets the panel really has: a spin box per row of [settings], a
    button per row of [colors]. *)
Definition from_panel (e : event) : Prop :=
  match e with
  | timeout => True
  | valueChanged s _ => s ∈ settings
  | clicked c _ => c ∈ colors
  end.

(** A spin box reports values inside the range given to [setRange]. *)
Definition in_range (e : event) : Prop :=
  match e with
  | valueChanged s v => minimum s <= v <= maximum s
  | _ => True
  end.

(** [redF], [greenF] and [blueF] of a picked colour lie in [0,1]. *)
Definition picks_unit_color (e : event) : Prop :=
  match e with
  | clicked _ (Some color) => unit_color color
  | _ => True
  end.

(** The events whose slot ends in a call of the render widget's [update]. *)
Definition requests_redraw (e : event) : bool :=
  match e with
  | clicked _ None => false
  | _ => true
  end.

(** Every number of the configuration lies in the range of its spin box. *)
Definition within_ranges (cfg : gmap string value) : Prop :=
  Forall (fun s => exists r : R, cfg !! attr s = Some (Num r) /\ minimum s <= r <= maximum s)
    settings.

(** Every colour of the configuration has its components in [0,1]. *)
Definition unit_colors (cfg : gmap string value) : Prop :=
  Forall (fun c => exists col : vec3, cfg !! c.2 = Some (Color col) /\ unit_color col) colors.

(** What [paintGL] reads: the seven numbers and the three colours. *)
Definition paintable (cfg : gmap string value) : Prop :=
  (exists r : R, cfg !! "baseHeight" = Some (Num r)) /\
  (exists r : R, cfg !! "waveHeight1" = Some (Num r)) /\
  (exists r : R, cfg !! "waveHeight2" = Some (Num r)) /\
  (exists r : R, cfg !! "waveWidth1" = Some (Num r)) /\
  (exists r : R, cfg !! "waveWidth2" = Some (Num r)) /\
  (exists r : R, cfg !! "borderWidth" = Some (Num r)) /\
  (exists r : R, cfg !! "borderGradient" = Some (Num r)) /\
  (exists c : vec3, cfg !! "backgroundColor" = Some (Color c)) /\
  (exists c : vec3, cfg !! "waveColor" = Some (Color c)) /\
  (exists c : vec3, cfg !! "borderColor" = Some (Color c)).

(** The window [w] with other phase offsets. *)
Definition with_offsets (o1 o2 : R) (w : MainWindow) : MainWindow :=
  {| config := config w; waveOffset1 := o1; waveOffset2 := o2; updates := updates w |}.

(** ** The vertex buffer and the draw call *)

(** [struct.pack("18f", ...)] in [initializeGL]: the eighteen floats of the
    buffer. *)
Definition data : list R :=
  [-1; -1; 0; -1; 1; 0; 1; -1; 0;
   1; 1; 0; 1; -1; 0; -1; 1; 0].

(** [glVertexAttribPointer(positionLoc, 3, GL_FLOAT, False, 12, None)]: the
    attribute [position] of vertex [i] is made of the three floats at byte
    offset [12 * i], that is from index [3 * i] on; a vertex past the end of
    the buffer has none. *)
Definition position (i : nat) : option vec3 :=
  x ← data !! (3 * i)%nat;
  y ← data !! (3 * i + 1)%nat;
  z ← data !! (3 * i + 2)%nat;
  Some (Vec3 x y z).

(** [VERTEX_SHADER]: [gl_Position = vec4(position, 1)]. *)
Definition VERTEX_SHADER_main (position : vec3) : vec3 * R := (position, 1).

(** [glDrawArrays(GL_TRIANGLES, first, count)]: every three consecutive
    vertices from [first] on make one triangle, given by the [gl_Position]
    of its corners. *)
Definition glDrawArrays (first count : nat) : option (list ((vec3 * R) * (vec3 * R) * (vec3 * R))) :=
  mapM (fun k : nat =>
          a ← position (first + 3 * k)%nat;
          b ← position (first + 3 * k + 1)%nat;
          c ← position (first + 3 * k + 2)%nat;
          Some (VERTEX_SHADER_main a, VERTEX_SHADER_main b, VERTEX_SHADER_main c))
       (seq 0 (count / 3)).

(** The point [(px, py)] of the plane of normalized device coordinates lies
    in the triangle [t]: it is a convex combination of the corners, each
    divided by its [w]. *)
Definition covers (t : (vec3 * R) * (vec3 * R) * (vec3 * R)) (px py : R) : Prop :=
  let '(a, b, c) := t in
  exists la lb lc : R,
    0 <= la /\ 0 <= lb /\ 0 <= lc /\ la + lb + lc = 1 /\
    px = la * (vx a.1 / a.2) + lb * (vx b.1 / b.2) + lc * (vx c.1 / c.2) /\
    py = la * (vy a.1 / a.2) + lb * (vy b.1 / b.2) + lc * (vy c.1 / c.2).

(** ** The animation tick on binary64 floats

    Python's [float] is the IEEE 754 binary64 format and [+=] rounds to
    nearest, ties to even, which is what the primitive [float] and its
    addition are.  A decimal literal such as [2.6] stands, here as in Python,
    for the nearest binary64 value. *)

#[local] Set Warnings "-inexact-float".

Module Binary64.

(** The two offsets of the render widget. *)
Record offsets : Type := { waveOffset1 : float; waveOffset2 : float }.

(** [RenderWidget.__init__]: both offsets are 0. *)
Definition init : offsets := {| waveOffset1 := 0%float; waveOffset2 := 0%float |}.

(** The two additions of [RenderWidget.updateWaves]. *)
Definition updateWaves (waveSpeed1 waveSpeed2 : float) (self : offsets) : offsets :=
  {| waveOffset1 := PrimFloat.add (waveOffset1 self) waveSpeed1;
     waveOffset2 := PrimFloat.add (waveOffset2 self) waveSpeed2 |}.

(** [n] timer ticks in a row, the configuration left as it is. *)
Fixpoint ticks (n : nat) (waveSpeed1 waveSpeed2 : float) (self : offsets) : offsets :=
  match n with
  | O => self
  | S n' => ticks n' waveSpeed1 waveSpeed2 (updateWaves waveSpeed1 waveSpeed2 self)
  end.

(** The real number a finite float stands for: sign, mantissa, exponent. *)
Definition to_R (f : float) : option R :=
  match Prim2SF f with
  | S754_zero _ => Some 0
  | S754_finite s m e => Some ((if s then -1 else 1) * IZR (Zpos m) * powerRZ 2 e)
  | _ => None
  end.

End Binary64.

Module FS := FRAGMENT_SHADER.

(** Case analysis on every comparison of reals in the goal. *)
Ltac real_cases :=
  repeat match goal with
    | |- context [Rlt_dec ?a ?b] => destruct (Rlt_dec a b)
    | |- context [Rgt_dec ?a ?b] => destruct (Rgt_dec a b)
    | |- context [Rge_dec ?a ?b] => destruct (Rge_dec a b)
    | |- context [Rle_dec ?a ?b] => destruct (Rle_dec a b)
    | |- context [Req_dec_T ?a ?b] => destruct (Req_dec_T a b)
    end.

Lemma vec3_eq (a b : vec3) :
  vx a = vx b -> vy a = vy b -> vz a = vz b -> a = b.
Proof. destruct a, b; simpl; intros; subst; reflexivity. Qed.

Lemma merge_at_0 (a b : vec3) : FS.merge a b 0 = a.
Proof. apply vec3_eq; simpl; ring. Qed.

Lemma merge_at_1 (a b : vec3) : FS.merge a b 1 = b.
Proof. apply vec3_eq; simpl; ring. Qed.

Lemma fdiv_nonzero (a b : R) : b <> 0 -> FS.fdiv a b = Some (a / b).
Proof. intros Hb. unfold FS.fdiv. destruct (Req_dec_T b 0); [contradiction | reflexivity]. Qed.

Lemma ratio_in_unit (a b : R) : 0 < a <= b -> 0 < a / b <= 1.
Proof.
  intros [Ha Hab]. assert (Hb : 0 < b) by lra. split.
  - apply Rdiv_lt_0_compat; assumption.
  - apply (Rmult_le_reg_r b); [assumption |].
    unfold Rdiv. rewrite Rmult_assoc, Rinv_l; lra.
Qed.

Lemma unit_color_merge (a b : vec3) (t : R) :
  unit_color a -> unit_color b -> 0 <= t <= 1 -> unit_color (FS.merge a b t).
Proof.
  unfold unit_color. destruct a as [ax ay az], b as [bx b_y bz]; simpl.
  intros (Hax & Hay & Haz) (Hbx & Hby & Hbz) Ht.
  repeat split; nra.
Qed.

Section Bands.

Variable u : FS.Uniforms.
Variables x y : R.

Let height := FS.wave_height u x.
Let top := height - FS.borderWidth u.
Let bottom := height - FS.borderWidth u - FS.borderGradient u.

(** [else] of the outer test: at or above the wave. *)
Lemma main_background : y >= height -> FS.main u (x, y) = Some (FS.backgroundColor u).
Proof.
  intros H. unfold FS.main; simpl. fold height.
  destruct (Rlt_dec y height); [lra | reflexivity].
Qed.

(** First inner branch. *)
Lemma main_border : top < y < height -> FS.main u (x, y) = Some (FS.borderColor u).
Proof.
  intros H. unfold top in H. unfold FS.main; simpl. fold height.
  destruct (Rlt_dec y height); [| lra].
  destruct (Rgt_dec y (height - FS.borderWidth u)); [reflexivity | lra].
Qed.

(** Second inner branch: the divisor is positive there. *)
Lemma main_blend :
  y < height -> bottom < y <= top ->
  0 < FS.borderGradient u /\
  FS.main u (x, y) =
    Some (FS.merge (FS.waveColor u) (FS.borderColor u) ((y - bottom) / FS.borderGradient u)).
Proof.
  intros H1 H2. unfold top, bottom in *. split; [lra |].
  unfold FS.main; simpl. fold height.
  destruct (Rlt_dec y height); [| lra].
  destruct (Rgt_dec y (height - FS.borderWidth u)); [lra |].
  destruct (Rgt_dec y (height - FS.borderWidth u - FS.borderGradient u)); [| lra].
  rewrite fdiv_nonzero by lra. reflexivity.
Qed.

(** Last inner branch. *)
Lemma main_wave :
  y < height -> y <= top -> y <= bottom -> FS.main u (x, y) = Some (FS.waveColor u).
Proof.
  intros H1 H2 H3. unfold top, bottom in *. unfold FS.main; simpl. fold height.
  destruct (Rlt_dec y height); [| lra].
  destruct (Rgt_dec y (height - FS.borderWidth u)); [lra |].
  destruct (Rgt_dec y (height - FS.borderWidth u - FS.borderGradient u)); [lra | reflexivity].
Qed.

(** The four branches cover every row. *)
Lemma main_cases :
  (y >= height /\ FS.main u (x, y) = Some (FS.backgroundColor u)) \/
  (top < y < height /\ FS.main u (x, y) = Some (FS.borderColor u)) \/
  (y < height /\ bottom < y <= top /\ 0 < FS.borderGradient u /\
   FS.main u (x, y) =
     Some (FS.merge (FS.waveColor u) (FS.borderColor u) ((y - bottom) / FS.borderGradient u))) \/
  (y < height /\ y <= top /\ y <= bottom /\ FS.main u (x, y) = Some (FS.waveColor u)).
Proof.
  destruct (Rlt_dec y height) as [Hlt | Hge].
  - destruct (Rgt_dec y top) as [Hb | Hb].
    + right; left. split; [lra | apply main_border; lra].
    + destruct (Rgt_dec y bottom) as [Hg | Hg].
      * right; right; left. destruct main_blend as [Hpos Hm]; [lra | lra |].
        repeat split; try lra. exact Hm.
      * right; right; right. repeat split; try lra. apply main_wave; lra.
  - left. split; [lra | apply main_background; lra].
Qed.

End Bands.

(** Every run of [main] writes a colour: the division is never reached with
    a zero divisor, whatever the uniforms. *)
Lemma main_total (u : FS.Uniforms) (frag : R * R) : is_Some (FS.main u frag).
Proof.
  destruct frag as [x y].
  destruct (main_cases u x y) as [[_ H] | [[_ H] | [(_ & _ & _ & H) | (_ & _ & _ & H)]]];
    rewrite H; eexists; reflexivity.
Qed.


Lemma flat_height (x : R) : FS.wave_height flat_uniforms x = 150.5.
Proof. unfold FS.wave_height; simpl. lra. Qed.



Lemma paintGL_flat : paintGL flat_window = Some flat_uniforms.
Proof. reflexivity. Qed.

Lemma flat_border_row : FS.main flat_uniforms (0.5, 145.5) = Some (Vec3 1 0 0).
Proof. apply (main_wave flat_uniforms); rewrite flat_height; simpl; lra. Qed.

(** ** The row under the border band when the gradient is zero *)

(** C1 as stated fails.  In [flat_window] the border gradient is 0, the
    border width is 5 and the wave height of column 0.5 is 150.5; the
    fragment (0.5, 145.5), on the row [y = height - borderWidth], gets
    [waveColor = (1, 0, 0)], not [borderColor = (1, 0.8, 0)]: the test of the
    border band is the strict [y > height - borderWidth]. *)
Lemma zero_gradient_border_row_not_border :
  exists u : FS.Uniforms,
    paintGL flat_window = Some u /\
    FS.borderGradient u = 0 /\ FS.borderWidth u > 0 /\
    FS.wave_height u 0.5 - FS.borderWidth u = 145.5 /\
    FS.main u (0.5, FS.wave_height u 0.5 - FS.borderWidth u) = Some (Vec3 1 0 0) /\
    FS.main u (0.5, FS.wave_height u 0.5 - FS.borderWidth u) <> Some (FS.borderColor u).
Proof.
  exists flat_uniforms.
  assert (Hy : FS.wave_height flat_uniforms 0.5 - FS.borderWidth flat_uniforms = 145.5)
    by (rewrite flat_height; simpl; lra).
  split; [exact paintGL_flat |].
  split; [reflexivity |]. split; [simpl; lra |]. split; [exact Hy |].
  rewrite Hy, flat_border_row. split; [reflexivity |].
  simpl. intros H. injection H as H. lra.
Qed.

(** C1, amended: with [borderGradient = 0] and [borderWidth > 0], the row
    [y = height - borderWidth] of every column gets [waveColor]; and the
    column has no blended band: a row at or above [height] gets
    [backgroundColor], a row strictly between [height - borderWidth] and
    [height] gets [borderColor], every row at or below
    [height - borderWidth] gets [waveColor]. *)
Theorem zero_gradient_border_row (u : FS.Uniforms) (x : R) :
  FS.borderGradient u = 0 -> FS.borderWidth u > 0 ->
  let height := FS.wave_height u x in
  FS.main u (x, height - FS.borderWidth u) = Some (FS.waveColor u) /\
  forall y : R,
    (y >= height /\ FS.main u (x, y) = Some (FS.backgroundColor u)) \/
    (height - FS.borderWidth u < y < height /\ FS.main u (x, y) = Some (FS.borderColor u)) \/
    (y <= height - FS.borderWidth u /\ FS.main u (x, y) = Some (FS.waveColor u)).
Proof.
  intros Hg Hw height. subst height. split.
  - apply main_wave; lra.
  - intros y.
    destruct (main_cases u x y) as [[Hy H] | [[Hy H] | [(Hy & Hb & Hpos & H) | (Hy & Ht & Hb & H)]]].
    + left. split; assumption.
    + right; left. split; assumption.
    + lra.
    + right; right. split; assumption.
Qed.

Lemma zero_gradient_border_row_witness :
  FS.borderGradient flat_uniforms = 0 /\
  FS.borderWidth flat_uniforms > 0 /\
  FS.main flat_uniforms
    (0.5, FS.wave_height flat_uniforms 0.5 - FS.borderWidth flat_uniforms)
  = Some (FS.waveColor flat_uniforms).
Proof.
  assert (Hg : FS.borderGradient flat_uniforms = 0) by reflexivity.
  assert (Hw : FS.borderWidth flat_uniforms > 0) by (simpl; lra).
  split; [exact Hg |]. split; [exact Hw |].
  exact (proj1 (zero_gradient_border_row flat_uniforms 0.5 Hg Hw)).
Defined.

(** ** No division by zero *)

(** C2: when [borderGradient] is 0, every fragment gets a colour, so no run
    of [main] divides by zero: the comparisons that lead to the division
    leave no row for the blended band. *)
Theorem zero_gradient_no_division_by_zero (u : FS.Uniforms) (x y : R) :
  FS.borderGradient u = 0 ->
  (exists color, FS.main u (x, y) = Some color) /\
  ~ band_rows u (FS.wave_height u x) Blend y.
Proof.
  intros Hg. split.
  - apply main_total.
  - unfold band_rows. rewrite Hg. lra.
Qed.

Lemma zero_gradient_no_division_by_zero_witness :
  FS.borderGradient flat_uniforms = 0 /\
  exists color : vec3, FS.main flat_uniforms (0.5, 145.5) = Some color.
Proof.
  assert (Hg : FS.borderGradient flat_uniforms = 0) by reflexivity.
  split; [exact Hg |].
  exact (proj1 (zero_gradient_no_division_by_zero flat_uniforms 0.5 145.5 Hg)).
Defined.

(** ** The four bands *)

(** C4 as stated fails.  In [flat_window], with [borderWidth = 5 >= 0] and
    [borderGradient = 0 >= 0], column 10.5 has wave height 150.5; the row
    [y = 145.5 = height - borderWidth] lies in the half-open border band
    [height - borderWidth <= y < height], whose colour is [(1, 0.8, 0)], and
    [main] writes [waveColor = (1, 0, 0)]. *)
Lemma half_open_bands_fail :
  paintGL flat_window = Some flat_uniforms /\
  FS.borderWidth flat_uniforms >= 0 /\
  FS.borderGradient flat_uniforms >= 0 /\
  FS.wave_height flat_uniforms 10.5 = 150.5 /\
  spec_shade flat_uniforms 150.5 145.5 = Vec3 1 0.8 0 /\
  FS.main flat_uniforms (10.5, 145.5) = Some (Vec3 1 0 0) /\
  FS.main flat_uniforms (10.5, 145.5)
    <> Some (spec_shade flat_uniforms (FS.wave_height flat_uniforms 10.5) 145.5).
Proof.
  assert (Hs : spec_shade flat_uniforms 150.5 145.5 = Vec3 1 0.8 0).
  { unfold spec_shade; simpl. real_cases; try lra; reflexivity. }
  assert (Hm : FS.main flat_uniforms (10.5, 145.5) = Some (Vec3 1 0 0)).
  { apply (main_wave flat_uniforms); rewrite flat_height; simpl; lra. }
  split; [exact paintGL_flat |]. split; [simpl; lra |]. split; [simpl; lra |].
  split; [apply flat_height |]. split; [exact Hs |]. split; [exact Hm |].
  rewrite Hm, flat_height, Hs. intros H. injection H as H. lra.
Qed.

(** C4, amended: for [borderWidth >= 0] and [borderGradient >= 0] every row
    [y] lies in exactly one of the four bands, delimited as [main] compares:
    [y >= height] gives [backgroundColor]; [height - borderWidth < y < height]
    gives [borderColor]; [height - borderWidth - borderGradient < y <=
    height - borderWidth] (below [height]) gives the blended colour;
    [y <= height - borderWidth - borderGradient] (below [height]) gives
    [waveColor].  The colour is the one of the half-open rule
    ([spec_shade]) on every row, except on the row [y = height - borderWidth]
    when [borderGradient = 0] and [borderWidth > 0], which gets [waveColor]. *)
Theorem bands_partition (u : FS.Uniforms) (x y : R) :
  FS.borderWidth u >= 0 -> FS.borderGradient u >= 0 ->
  let height := FS.wave_height u x in
  (exists! b : band, band_rows u height b y) /\
  (forall b : band,
     band_rows u height b y -> FS.main u (x, y) = Some (band_color u height y b)) /\
  (FS.borderGradient u > 0 \/ FS.borderWidth u = 0 \/ y <> height - FS.borderWidth u ->
   FS.main u (x, y) = Some (spec_shade u height y)) /\
  (FS.borderGradient u = 0 -> FS.borderWidth u > 0 -> y = height - FS.borderWidth u ->
   FS.main u (x, y) = Some (FS.waveColor u)).
Proof.
  intros Hw Hg height. subst height.
  set (h := FS.wave_height u x).
  pose proof (main_cases u x y) as Hc. fold h in Hc.
  split; [| split; [| split]].
  - destruct Hc as [[Hy _] | [[Hy _] | [(Hy & Hb & _) | (Hy & Ht & Hb & _)]]].
    + exists Background. split; [exact Hy |].
      intros [] Hb'; simpl in Hb'; (reflexivity || lra).
    + exists Border. split; [exact Hy |].
      intros [] Hb'; simpl in Hb'; (reflexivity || lra).
    + exists Blend. split; [simpl; lra |].
      intros [] Hb'; simpl in Hb'; (reflexivity || lra).
    + exists Wave. split; [simpl; lra |].
      intros [] Hb'; simpl in Hb'; (reflexivity || lra).
  - intros b Hb.
    destruct Hc as [[Hy H] | [[Hy H] | [(Hy & Hr & _ & H) | (Hy & Ht & Hr & H)]]];
      destruct b; simpl in Hb; try lra; rewrite H; reflexivity.
  - intros Hne. unfold spec_shade. cbv zeta. fold h.
    destruct Hc as [[Hy H] | [[Hy H] | [(Hy & Hr & Hpos & H) | (Hy & Ht & Hr & H)]]];
      rewrite H; f_equal.
    + destruct (Rge_dec y h); [reflexivity | lra].
    + destruct (Rge_dec y h); [lra |].
      destruct (Rle_dec (h - FS.borderWidth u) y); [reflexivity | lra].
    + destruct (Rge_dec y h); [lra |].
      destruct (Rle_dec (h - FS.borderWidth u) y) as [Hle | Hnle].
      * replace ((y - (h - FS.borderWidth u - FS.borderGradient u)) / FS.borderGradient u)
          with 1 by (field_simplify_eq; lra).
        apply merge_at_1.
      * destruct (Rle_dec (h - FS.borderWidth u - FS.borderGradient u) y); [reflexivity | lra].
    + destruct (Rge_dec y h); [lra |].
      destruct (Rle_dec (h - FS.borderWidth u) y) as [Hle | Hnle]; [lra |].
      destruct (Rle_dec (h - FS.borderWidth u - FS.borderGradient u) y) as [Hle' | Hnle'];
        [| reflexivity].
      replace (y - (h - FS.borderWidth u - FS.borderGradient u)) with 0 by lra.
      unfold Rdiv. rewrite Rmult_0_l. symmetry. apply merge_at_0.
  - intros Hg0 Hw0 Hy. apply main_wave; fold h; lra.
Qed.

Lemma bands_partition_witness :
  FS.borderWidth default_uniforms >= 0 /\
  FS.borderGradient default_uniforms >= 0 /\
  FS.main default_uniforms (0, 209)
  = Some (spec_shade default_uniforms (FS.wave_height default_uniforms 0) 209).
Proof.
  assert (Hw : FS.borderWidth default_uniforms >= 0) by (simpl; lra).
  assert (Hg : FS.borderGradient default_uniforms >= 0) by (simpl; lra).
  split; [exact Hw |]. split; [exact Hg |].
  apply (bands_partition default_uniforms 0 209 Hw Hg).
  left. simpl. lra.
Defined.

(** ** Interpolation *)

(** C5: the blend [waveColor + (borderColor - waveColor) * t] is [waveColor]
    at [t = 0] and [borderColor] at [t = 1], in every component. *)
Theorem merge_endpoints (waveColor borderColor : vec3) :
  (forall t : R,
     FS.merge waveColor borderColor t
     = vadd waveColor (vscale (vsub borderColor waveColor) t)) /\
  FS.merge waveColor borderColor 0 = waveColor /\
  FS.merge waveColor borderColor 1 = borderColor.
Proof.
  split; [reflexivity |]. split; [apply merge_at_0 | apply merge_at_1].
Qed.

(** ** The colours a fragment can get *)

(** C10: every fragment gets [backgroundColor], [borderColor], [waveColor]
    or a blend of [waveColor] and [borderColor] with a factor in (0, 1];
    hence when the three colours have their components in [0, 1], so has the
    colour of every fragment. *)
Theorem main_color_range (u : FS.Uniforms) (frag : R * R) :
  exists color : vec3,
    FS.main u frag = Some color /\
    (color = FS.backgroundColor u \/ color = FS.borderColor u \/ color = FS.waveColor u \/
     exists t : R, 0 < t <= 1 /\ color = FS.merge (FS.waveColor u) (FS.borderColor u) t) /\
    (unit_color (FS.backgroundColor u) -> unit_color (FS.waveColor u) ->
     unit_color (FS.borderColor u) -> unit_color color).
Proof.
  destruct frag as [x y].
  destruct (main_cases u x y) as [[_ H] | [[_ H] | [(Hy & Hr & Hpos & H) | (_ & _ & _ & H)]]];
    rewrite H; eexists; (split; [reflexivity |]).
  - split; [left; reflexivity | intros; assumption].
  - split; [right; left; reflexivity | intros; assumption].
  - assert (Ht : 0 < (y - (FS.wave_height u x - FS.borderWidth u - FS.borderGradient u))
                     / FS.borderGradient u <= 1) by (apply ratio_in_unit; lra).
    split.
    + right; right; right. eexists. split; [exact Ht | reflexivity].
    + intros _ Hwc Hbc. apply unit_color_merge; [assumption | assumption | lra].
  - split; [right; right; left; reflexivity | intros; assumption].
Qed.

Lemma main_color_range_witness :
  unit_color (FS.backgroundColor default_uniforms) /\
  unit_color (FS.waveColor default_uniforms) /\
  unit_color (FS.borderColor default_uniforms) /\
  exists color : vec3,
    FS.main default_uniforms (0, 190) = Some color /\ unit_color color.
Proof.
  assert (H1 : unit_color (FS.backgroundColor default_uniforms))
    by (unfold unit_color; simpl; lra).
  assert (H2 : unit_color (FS.waveColor default_uniforms))
    by (unfold unit_color; simpl; lra).
  assert (H3 : unit_color (FS.borderColor default_uniforms))
    by (unfold unit_color; simpl; lra).
  split; [exact H1 |]. split; [exact H2 |]. split; [exact H3 |].
  destruct (main_color_range default_uniforms (0, 190)) as (color & Hm & _ & Hu).
  exists color. split; [exact Hm | exact (Hu H1 H2 H3)].
Defined.

(** * Properties of the configuration and the window *)

(** What a painted frame says about the configuration it was painted from. *)
Lemma paintGL_inv (w : MainWindow) (u : FS.Uniforms) :
  paintGL w = Some u ->
  config w !! "baseHeight" = Some (Num (FS.baseHeight u)) /\
  config w !! "waveHeight1" = Some (Num (FS.waveHeight1 u)) /\
  config w !! "waveHeight2" = Some (Num (FS.waveHeight2 u)) /\
  (exists waveWidth1 : R,
     config w !! "waveWidth1" = Some (Num waveWidth1) /\
     FS.waveWidth1 u = waveWidth1 * PI / 360) /\
  (exists waveWidth2 : R,
     config w !! "waveWidth2" = Some (Num waveWidth2) /\
     FS.waveWidth2 u = waveWidth2 * PI / 360) /\
  FS.waveOffset1 u = waveOffset1 w * PI / 360 /\
  FS.waveOffset2 u = waveOffset2 w * PI / 360 /\
  config w !! "borderWidth" = Some (Num (FS.borderWidth u)) /\
  config w !! "borderGradient" = Some (Num (FS.borderGradient u)) /\
  config w !! "backgroundColor" = Some (Color (FS.backgroundColor u)) /\
  config w !! "waveColor" = Some (Color (FS.waveColor u)) /\
  config w !! "borderColor" = Some (Color (FS.borderColor u)).
Proof.
  unfold paintGL. intros H.
  repeat match type of H with
    | context [config w !! ?k] =>
        destruct (config w !! k) as [[?|?]|]; simpl in H; try discriminate H
    end.
  injection H as <-. simpl. repeat split; eauto.
Qed.

(** ** The wave height *)

(** C3: in a frame painted from state [w], the wave height of column [x] is
    [baseHeight + (1 + sin (x * waveWidth1 * PI / 360 + waveOffset1 * PI / 360))
    * waveHeight1 + (1 + sin (x * waveWidth2 * PI / 360 + waveOffset2 * PI / 360))
    * waveHeight2] over the configured values: widths and phases are both
    scaled by [PI / 360]. *)
Theorem wave_height_formula (w : MainWindow) (u : FS.Uniforms) (x : R) :
  paintGL w = Some u ->
  exists baseHeight waveHeight1 waveHeight2 waveWidth1 waveWidth2 : R,
    config w !! "baseHeight" = Some (Num baseHeight) /\
    config w !! "waveHeight1" = Some (Num waveHeight1) /\
    config w !! "waveHeight2" = Some (Num waveHeight2) /\
    config w !! "waveWidth1" = Some (Num waveWidth1) /\
    config w !! "waveWidth2" = Some (Num waveWidth2) /\
    FS.wave_height u x =
      baseHeight
      + (1 + sin (x * waveWidth1 * PI / 360 + waveOffset1 w * PI / 360)) * waveHeight1
      + (1 + sin (x * waveWidth2 * PI / 360 + waveOffset2 w * PI / 360)) * waveHeight2.
Proof.
  intros H.
  destruct (paintGL_inv w u H)
    as (Hb & Hh1 & Hh2 & (ww1 & Hw1 & E1) & (ww2 & Hw2 & E2) & Eo1 & Eo2 & _).
  exists (FS.baseHeight u), (FS.waveHeight1 u), (FS.waveHeight2 u), ww1, ww2.
  repeat (split; [assumption |]).
  unfold FS.wave_height. rewrite E1, E2, Eo1, Eo2.
  replace (x * (ww1 * PI / 360)) with (x * ww1 * PI / 360) by (unfold Rdiv; ring).
  replace (x * (ww2 * PI / 360)) with (x * ww2 * PI / 360) by (unfold Rdiv; ring).
  reflexivity.
Qed.

Lemma wave_height_formula_witness :
  paintGL MainWindow_init = Some default_uniforms /\
  exists baseHeight waveHeight1 waveHeight2 waveWidth1 waveWidth2 : R,
    config MainWindow_init !! "baseHeight" = Some (Num baseHeight) /\
    config MainWindow_init !! "waveHeight1" = Some (Num waveHeight1) /\
    config MainWindow_init !! "waveHeight2" = Some (Num waveHeight2) /\
    config MainWindow_init !! "waveWidth1" = Some (Num waveWidth1) /\
    config MainWindow_init !! "waveWidth2" = Some (Num waveWidth2) /\
    FS.wave_height default_uniforms 7 =
      baseHeight
      + (1 + sin (7 * waveWidth1 * PI / 360 + waveOffset1 MainWindow_init * PI / 360))
        * waveHeight1
      + (1 + sin (7 * waveWidth2 * PI / 360 + waveOffset2 MainWindow_init * PI / 360))
        * waveHeight2.
Proof.
  assert (H : paintGL MainWindow_init = Some default_uniforms) by reflexivity.
  split; [exact H |].
  exact (wave_height_formula MainWindow_init default_uniforms 7 H).
Defined.

(** ** Defaults *)

(** C6: whatever the attributes of the configuration were, after [reset]
    every field reads as its default. *)
Theorem reset_defaults (self : gmap string value) :
  reset self !! "baseHeight" = Some (Num 150) /\
  reset self !! "waveHeight1" = Some (Num 60) /\
  reset self !! "waveHeight2" = Some (Num 4) /\
  reset self !! "waveWidth1" = Some (Num 2.5) /\
  reset self !! "waveWidth2" = Some (Num 16) /\
  reset self !! "waveSpeed1" = Some (Num 2.6) /\
  reset self !! "waveSpeed2" = Some (Num 32) /\
  reset self !! "borderWidth" = Some (Num 5) /\
  reset self !! "borderGradient" = Some (Num 20) /\
  reset self !! "backgroundColor" = Some (Color (Vec3 0 0 0)) /\
  reset self !! "waveColor" = Some (Color (Vec3 1 0 0)) /\
  reset self !! "borderColor" = Some (Color (Vec3 1 0.8 0)).
Proof.
  unfold reset. repeat split; by simplify_map_eq.
Qed.

(** ** Animation *)

Lemma updateWaves_step (w : MainWindow) (s1 s2 : R) :
  config w !! "waveSpeed1" = Some (Num s1) ->
  config w !! "waveSpeed2" = Some (Num s2) ->
  updateWaves w =
    Some {| config := config w;
            waveOffset1 := waveOffset1 w + s1;
            waveOffset2 := waveOffset2 w + s2;
            updates := S (updates w) |}.
Proof. intros H1 H2. unfold updateWaves. rewrite H1, H2. reflexivity. Qed.

(** [n] ticks from any state: each offset has grown by [n] times its speed,
    the configuration is the same, [n] redraws were requested. *)
Lemma ticks_from (n : nat) (w : MainWindow) (s1 s2 : R) :
  config w !! "waveSpeed1" = Some (Num s1) ->
  config w !! "waveSpeed2" = Some (Num s2) ->
  ticks n w =
    Some {| config := config w;
            waveOffset1 := waveOffset1 w + INR n * s1;
            waveOffset2 := waveOffset2 w + INR n * s2;
            updates := (updates w + n)%nat |}.
Proof.
  revert w. induction n as [| n IH]; intros w H1 H2.
  - simpl. destruct w as [c o1 o2 k]; simpl. do 2 f_equal; [ring | ring | lia].
  - cbn [ticks]. rewrite (updateWaves_step w s1 s2 H1 H2). cbn [mbind option_bind].
    rewrite IH by assumption. cbn [config waveOffset1 waveOffset2 updates].
    rewrite S_INR. do 2 f_equal; [ring | ring | lia].
Qed.

Lemma Prim2SF_speed : Prim2SF 2.6%float = S754_finite false 5854679515581645 (-51).
Proof. vm_compute. reflexivity. Qed.

Lemma Prim2SF_six_ticks : Prim2SF 15.6%float = S754_finite false 8782019273372467 (-49).
Proof. vm_compute. reflexivity. Qed.

(** C7 as stated fails on the floats of the program.  With the default
    configuration, six ticks from offset 0 add [2.6] six times in binary64 and
    leave [waveOffset1 = 15.6]; Python's [6 * 2.6] is [15.600000000000001],
    and the real number [15.6] stands for is not six times the real number
    [2.6] stands for either: the additions round. *)
Lemma six_ticks_not_exact :
  let self := Binary64.ticks 6 2.6%float 32%float Binary64.init in
  Binary64.waveOffset1 self = 15.6%float /\
  PrimFloat.mul 6%float 2.6%float = 15.600000000000001%float /\
  PrimFloat.eqb (Binary64.waveOffset1 self) (PrimFloat.mul 6%float 2.6%float) = false /\
  exists offset speed : R,
    Binary64.to_R (Binary64.waveOffset1 self) = Some offset /\
    Binary64.to_R 2.6%float = Some speed /\
    offset <> INR 6 * speed.
Proof.
  assert (H : Binary64.waveOffset1 (Binary64.ticks 6 2.6%float 32%float Binary64.init)
              = 15.6%float) by (vm_compute; reflexivity).
  cbv zeta. rewrite H.
  split; [reflexivity |]. split; [vm_compute; reflexivity |].
  split; [vm_compute; reflexivity |].
  unfold Binary64.to_R. rewrite Prim2SF_speed, Prim2SF_six_ticks.
  eexists; eexists. split; [reflexivity |]. split; [reflexivity |].
  change (powerRZ 2 (-49)) with (/ 2 ^ 49). change (powerRZ 2 (-51)) with (/ 2 ^ 51).
  replace (2 ^ 51) with (4 * 2 ^ 49) by (simpl; ring).
  replace (INR 6) with 6 by (simpl; ring).
  assert (Hp : 0 < 2 ^ 49) by (apply pow_lt; lra).
  intros E.
  assert (E' : IZR 8782019273372467 * 4 = 6 * IZR 5854679515581645).
  { apply (Rmult_eq_reg_r (/ (4 * 2 ^ 49))); [| apply Rinv_neq_0_compat; lra].
    rewrite Rinv_mult in *. lra. }
  lra.
Qed.

(** C7, amended: in exact arithmetic, from [waveOffset1 = waveOffset2 = 0],
    [N] ticks with the configuration left as it is end in a state with
    [waveOffset1 = N * waveSpeed1] and [waveOffset2 = N * waveSpeed2]: every
    tick adds the speed to the offset and nothing wraps or clamps the sums.
    (The program's additions are binary64 additions; the offsets it stores
    agree with these products up to their rounding.) *)
Theorem ticks_accumulate (N : nat) (w : MainWindow) (waveSpeed1 waveSpeed2 : R) :
  config w !! "waveSpeed1" = Some (Num waveSpeed1) ->
  config w !! "waveSpeed2" = Some (Num waveSpeed2) ->
  waveOffset1 w = 0 -> waveOffset2 w = 0 ->
  exists w' : MainWindow,
    ticks N w = Some w' /\
    waveOffset1 w' = INR N * waveSpeed1 /\
    waveOffset2 w' = INR N * waveSpeed2 /\
    config w' = config w.
Proof.
  intros H1 H2 Z1 Z2. eexists. split; [apply (ticks_from N w _ _ H1 H2) |].
  simpl. rewrite Z1, Z2. repeat split; ring.
Qed.

Lemma ticks_accumulate_witness :
  config MainWindow_init !! "waveSpeed1" = Some (Num 2.6) /\
  config MainWindow_init !! "waveSpeed2" = Some (Num 32) /\
  waveOffset1 MainWindow_init = 0 /\ waveOffset2 MainWindow_init = 0 /\
  exists w' : MainWindow,
    ticks 3 MainWindow_init = Some w' /\
    waveOffset1 w' = INR 3 * 2.6 /\
    waveOffset2 w' = INR 3 * 32 /\
    config w' = config MainWindow_init.
Proof.
  repeat (split; [reflexivity |]).
  apply (ticks_accumulate 3 MainWindow_init 2.6 32); reflexivity.
Defined.

(** ** The worked example *)


(** ** Edits *)

(** C9: an edit, [changeValue] or [changeColor], sets the named attribute of
    the configuration to the given value and leaves every other attribute
    of the configuration as it was. *)
Theorem edit_frame (w : MainWindow) (name : string) (v : R) (color : vec3) :
  (config (changeValue name v w) !! name = Some (Num v) /\
   forall other : string,
     other <> name -> config (changeValue name v w) !! other = config w !! other) /\
  (config (changeColor name color w) !! name = Some (Color color) /\
   forall other : string,
     other <> name -> config (changeColor name color w) !! other = config w !! other).
Proof.
  unfold changeValue, changeColor, update, setattr; simpl.
  split; (split; [apply lookup_insert_eq | intros other Hne; apply lookup_insert_ne; congruence]).
Qed.

Lemma edit_frame_witness :
  "waveColor" <> "baseHeight" /\
  config (changeValue "baseHeight" 120 MainWindow_init) !! "baseHeight" = Some (Num 120) /\
  config (changeValue "baseHeight" 120 MainWindow_init) !! "waveColor"
  = config MainWindow_init !! "waveColor".
Proof.
  assert (Hne : "waveColor" <> "baseHeight") by discriminate.
  destruct (edit_frame MainWindow_init "baseHeight" 120 (Vec3 0 0 0)) as [[Hset Hother] _].
  split; [exact Hne |]. split; [exact Hset | exact (Hother "waveColor" Hne)].
Defined.

(** ** The shape of the configuration is kept

    [reset] establishes [well_formed]; the edits the panel can make and the
    timer's tick keep it; a well-formed configuration is all [paintGL] and
    [updateWaves] need in order not to raise. *)

Lemma well_formed_reset (self : gmap string value) : well_formed (reset self).
Proof.
  unfold well_formed, reset, settings, colors.
  split; repeat constructor; simpl; eexists; by simplify_map_eq.
Qed.

Lemma settings_not_colors :
  Forall (fun s => Forall (fun c : string * string => c.2 <> attr s) colors) settings.
Proof. repeat constructor; discriminate. Qed.

Lemma well_formed_changeValue (s : setting) (v : R) (w : MainWindow) :
  s ∈ settings -> well_formed (config w) ->
  well_formed (config (changeValue (attr s) v w)).
Proof.
  intros Hs [Hn Hc]. unfold changeValue, update, setattr; simpl. split.
  - eapply Forall_impl; [exact Hn |]. intros s' [r Hr]; simpl.
    destruct (decide (attr s = attr s')) as [-> | Hne].
    + exists v. apply lookup_insert_eq.
    + exists r. rewrite lookup_insert_ne; assumption.
  - pose proof (proj1 (Forall_forall _ _) settings_not_colors s Hs) as Hd.
    rewrite Forall_forall in Hd, Hc. apply Forall_forall. intros c Hin.
    destruct (Hc c Hin) as [col Hcol]. exists col.
    rewrite lookup_insert_ne; [assumption |]. intros E. exact (Hd c Hin (eq_sym E)).
Qed.

Lemma well_formed_changeColor (c : string * string) (color : vec3) (w : MainWindow) :
  c ∈ colors -> well_formed (config w) ->
  well_formed (config (changeColor c.2 color w)).
Proof.
  intros Hin [Hn Hc]. unfold changeColor, update, setattr; simpl. split.
  - pose proof settings_not_colors as Hd.
    rewrite Forall_forall in Hd, Hn. apply Forall_forall. intros s Hs.
    destruct (Hn s Hs) as [r Hr]. exists r.
    rewrite lookup_insert_ne; [assumption |].
    exact (proj1 (Forall_forall _ _) (Hd s Hs) c Hin).
  - eapply Forall_impl; [exact Hc |]. intros c' [col Hcol]; simpl.
    destruct (decide (c.2 = c'.2)) as [-> | Hne].
    + exists color. apply lookup_insert_eq.
    + exists col. rewrite lookup_insert_ne; assumption.
Qed.

Lemma well_formed_setting (cfg : gmap string value) (name : string) :
  well_formed cfg -> name ∈ attr <$> settings -> exists r : R, cfg !! name = Some (Num r).
Proof.
  intros [Hn _] Hin. apply list_elem_of_fmap in Hin as (s & -> & Hs).
  exact (proj1 (Forall_forall _ _) Hn s Hs).
Qed.

Lemma well_formed_color (cfg : gmap string value) (name : string) :
  well_formed cfg -> name ∈ snd <$> colors -> exists col : vec3, cfg !! name = Some (Color col).
Proof.
  intros [_ Hc] Hin. apply list_elem_of_fmap in Hin as (c & -> & Hin).
  exact (proj1 (Forall_forall _ _) Hc c Hin).
Qed.

Lemma updateWaves_total (w : MainWindow) :
  well_formed (config w) ->
  exists w' : MainWindow, updateWaves w = Some w' /\ config w' = config w.
Proof.
  intros Hwf.
  destruct (well_formed_setting _ "waveSpeed1" Hwf) as [s1 H1]; [set_solver |].
  destruct (well_formed_setting _ "waveSpeed2" Hwf) as [s2 H2]; [set_solver |].
  rewrite (updateWaves_step w s1 s2 H1 H2). eexists. split; reflexivity.
Qed.

Lemma paintGL_total (w : MainWindow) :
  well_formed (config w) -> is_Some (paintGL w).
Proof.
  intros Hwf. unfold paintGL.
  destruct (well_formed_setting _ "baseHeight" Hwf) as [? ->]; [set_solver |].
  destruct (well_formed_setting _ "waveHeight1" Hwf) as [? ->]; [set_solver |].
  destruct (well_formed_setting _ "waveHeight2" Hwf) as [? ->]; [set_solver |].
  destruct (well_formed_setting _ "waveWidth1" Hwf) as [? ->]; [set_solver |].
  destruct (well_formed_setting _ "waveWidth2" Hwf) as [? ->]; [set_solver |].
  destruct (well_formed_setting _ "borderWidth" Hwf) as [? ->]; [set_solver |].
  destruct (well_formed_setting _ "borderGradient" Hwf) as [? ->]; [set_solver |].
  destruct (well_formed_color _ "backgroundColor" Hwf) as [? ->]; [set_solver |].
  destruct (well_formed_color _ "waveColor" Hwf) as [? ->]; [set_solver |].
  destruct (well_formed_color _ "borderColor" Hwf) as [? ->]; [set_solver |].
  simpl. eexists; reflexivity.
Qed.

(** Every pixel of a frame painted from a well-formed configuration gets a
    colour. *)
Lemma pixel_total (w : MainWindow) (frag : R * R) :
  well_formed (config w) -> is_Some (pixel w frag).
Proof.
  intros Hwf. unfold pixel.
  destruct (paintGL_total w Hwf) as [u ->]. simpl. apply main_total.
Qed.

(** * Further properties of the shader *)

(** A term [sin _ * a] of the wave height stays within [Rabs a]. *)
Lemma sin_term_bound (t a : R) : - Rabs a <= sin t * a <= Rabs a.
Proof.
  pose proof (SIN_bound t) as Hs.
  unfold Rabs. destruct (Rcase_abs a); nra.
Qed.

Lemma sin_period_Z (t : R) (k : Z) : sin (t + 2 * IZR k * PI) = sin t.
Proof.
  destruct (Z_le_gt_dec 0 k) as [Hk | Hk].
  - rewrite <- (Z2Nat.id k) by lia. rewrite <- INR_IZR_INZ. apply sin_period.
  - rewrite <- (sin_period (t + 2 * IZR k * PI) (Z.to_nat (- k))).
    rewrite INR_IZR_INZ, Z2Nat.id by lia. rewrite opp_IZR. f_equal. ring.
Qed.

(** [main] reads the uniforms through the wave height, the two widths of
    the border and the three colours only. *)
Lemma main_same_height (u u' : FS.Uniforms) (x y : R) :
  FS.wave_height u' x = FS.wave_height u x ->
  FS.borderWidth u' = FS.borderWidth u ->
  FS.borderGradient u' = FS.borderGradient u ->
  FS.backgroundColor u' = FS.backgroundColor u ->
  FS.waveColor u' = FS.waveColor u ->
  FS.borderColor u' = FS.borderColor u ->
  FS.main u' (x, y) = FS.main u (x, y).
Proof.
  intros Hh Hw Hg Hb Hc Hd. unfold FS.main; simpl.
  rewrite Hh, Hw, Hg, Hb, Hc, Hd. reflexivity.
Qed.


(** A fragment of a frame whose three colours are unit colours gets a unit
    colour. *)
Lemma main_unit_color (u : FS.Uniforms) (frag : R * R) (color : vec3) :
  unit_color (FS.backgroundColor u) -> unit_color (FS.waveColor u) ->
  unit_color (FS.borderColor u) ->
  FS.main u frag = Some color -> unit_color color.
Proof.
  intros Hb Hw Hd. destruct frag as [x y].
  destruct (main_cases u x y) as [[_ H] | [[_ H] | [(Hy & Hr & Hpos & H) | (_ & _ & _ & H)]]];
    rewrite H; intros [= <-]; try assumption.
  apply unit_color_merge; [assumption | assumption |].
  pose proof (ratio_in_unit
                (y - (FS.wave_height u x - FS.borderWidth u - FS.borderGradient u))
                (FS.borderGradient u)) as Ht.
  lra.
Qed.

(** ** Where the wave can be *)

(** X1: in every column and at every phase the wave height differs from
    [baseHeight + waveHeight1 + waveHeight2] by at most
    [|waveHeight1| + |waveHeight2|]. *)
Theorem wave_height_bounds (u : FS.Uniforms) (x : R) :
  let mid := FS.baseHeight u + FS.waveHeight1 u + FS.waveHeight2 u in
  let amp := Rabs (FS.waveHeight1 u) + Rabs (FS.waveHeight2 u) in
  mid - amp <= FS.wave_height u x <= mid + amp.
Proof.
  intros mid amp. subst mid amp. unfold FS.wave_height.
  pose proof (sin_term_bound (x * FS.waveWidth1 u + FS.waveOffset1 u) (FS.waveHeight1 u)).
  pose proof (sin_term_bound (x * FS.waveWidth2 u + FS.waveOffset2 u) (FS.waveHeight2 u)).
  lra.
Qed.

(** X2: whatever the column and the phases, a fragment at or above
    [baseHeight + waveHeight1 + waveHeight2 + |waveHeight1| + |waveHeight2|]
    gets [backgroundColor]; with border widths that are not negative, a
    fragment more than [borderWidth + borderGradient] below
    [baseHeight + waveHeight1 + waveHeight2 - |waveHeight1| - |waveHeight2|]
    gets [waveColor]. *)
Theorem solid_regions (u : FS.Uniforms) (x y : R) :
  let mid := FS.baseHeight u + FS.waveHeight1 u + FS.waveHeight2 u in
  let amp := Rabs (FS.waveHeight1 u) + Rabs (FS.waveHeight2 u) in
  (y >= mid + amp -> FS.main u (x, y) = Some (FS.backgroundColor u)) /\
  (0 <= FS.borderWidth u -> 0 <= FS.borderGradient u ->
   y < mid - amp - FS.borderWidth u - FS.borderGradient u ->
   FS.main u (x, y) = Some (FS.waveColor u)).
Proof.
  intros mid amp. subst mid amp.
  assert (Hh : FS.baseHeight u + FS.waveHeight1 u + FS.waveHeight2 u
               - (Rabs (FS.waveHeight1 u) + Rabs (FS.waveHeight2 u))
               <= FS.wave_height u x
               <= FS.baseHeight u + FS.waveHeight1 u + FS.waveHeight2 u
                  + (Rabs (FS.waveHeight1 u) + Rabs (FS.waveHeight2 u))).
  { unfold FS.wave_height.
    pose proof (sin_term_bound (x * FS.waveWidth1 u + FS.waveOffset1 u) (FS.waveHeight1 u)).
    pose proof (sin_term_bound (x * FS.waveWidth2 u + FS.waveOffset2 u) (FS.waveHeight2 u)).
    lra. }
  split.
  - intros Hy. apply main_background. lra.
  - intros Hw Hg Hy. apply main_wave; lra.
Qed.

Lemma solid_regions_witness :
  FS.main default_uniforms (33.5, 278.5) = Some (FS.backgroundColor default_uniforms) /\
  FS.main default_uniforms (33.5, 124.5) = Some (FS.waveColor default_uniforms).
Proof.
  destruct (solid_regions default_uniforms 33.5 278.5) as [Hb _].
  destruct (solid_regions default_uniforms 33.5 124.5) as [_ Hw].
  split.
  - apply Hb. simpl. rewrite !Rabs_pos_eq by lra. lra.
  - apply Hw; simpl; try lra. rewrite !Rabs_pos_eq by lra. lra.
Defined.

(** X3: with a border and a gradient of positive width the blended band
    joins its neighbours without a step: the row [y = height - borderWidth]
    gets exactly [borderColor], the row
    [y = height - borderWidth - borderGradient] exactly [waveColor]. *)
Theorem blend_meets_neighbours (u : FS.Uniforms) (x : R) :
  0 < FS.borderWidth u -> 0 < FS.borderGradient u ->
  let height := FS.wave_height u x in
  FS.main u (x, height - FS.borderWidth u) = Some (FS.borderColor u) /\
  FS.main u (x, height - FS.borderWidth u - FS.borderGradient u) = Some (FS.waveColor u).
Proof.
  intros Hw Hg height. subst height. split.
  - destruct (main_blend u x (FS.wave_height u x - FS.borderWidth u)) as [_ H]; [lra | lra |].
    rewrite H. f_equal.
    replace ((FS.wave_height u x - FS.borderWidth u
              - (FS.wave_height u x - FS.borderWidth u - FS.borderGradient u))
             / FS.borderGradient u) with 1 by (field; lra).
    apply merge_at_1.
  - apply main_wave; lra.
Qed.

Lemma blend_meets_neighbours_witness :
  0 < FS.borderWidth default_uniforms /\ 0 < FS.borderGradient default_uniforms /\
  FS.main default_uniforms
    (0.5, FS.wave_height default_uniforms 0.5 - FS.borderWidth default_uniforms)
  = Some (FS.borderColor default_uniforms).
Proof.
  assert (Hw : 0 < FS.borderWidth default_uniforms) by (simpl; lra).
  assert (Hg : 0 < FS.borderGradient default_uniforms) by (simpl; lra).
  split; [exact Hw |]. split; [exact Hg |].
  exact (proj1 (blend_meets_neighbours default_uniforms 0.5 Hw Hg)).
Defined.

(** * Further properties of the window *)

(** Case analysis on every attribute of [config w] the goal looks up. *)
Ltac config_cases w :=
  repeat match goal with
    | |- context [config w !! ?k] =>
        destruct (config w !! k) as [[?|?]|]; simpl; try reflexivity
    end.

(** 720 units of phase are one turn of the sine. *)
Lemma sin_phase_shift (a o : R) (k : Z) :
  sin (a + (o + 720 * IZR k) * PI / 360) = sin (a + o * PI / 360).
Proof.
  replace (a + (o + 720 * IZR k) * PI / 360)
    with (a + o * PI / 360 + 2 * IZR k * PI) by field.
  apply sin_period_Z.
Qed.

(** Two windows with the same configuration whose phases differ by whole
    multiples of 720 paint the same frame. *)
Lemma pixel_phase_shift (w w' : MainWindow) (k1 k2 : Z) (frag : R * R) :
  config w' = config w ->
  waveOffset1 w' = waveOffset1 w + 720 * IZR k1 ->
  waveOffset2 w' = waveOffset2 w + 720 * IZR k2 ->
  pixel w' frag = pixel w frag.
Proof.
  intros Hc H1 H2. destruct frag as [x y].
  unfold pixel, paintGL. rewrite Hc, H1, H2. config_cases w.
  apply main_same_height; try reflexivity.
  unfold FS.wave_height; simpl. rewrite !sin_phase_shift. reflexivity.
Qed.

(** ** Phases *)

(** X4: in exact arithmetic the frame depends on each phase offset modulo
    720 only: adding whole multiples of 720 to [waveOffset1] and
    [waveOffset2] changes no pixel.  (The program hands the scaled offsets to
    the shader as 32-bit floats; there this holds up to a rounding that grows
    with the offset.) *)
Theorem phase_period (w : MainWindow) (k1 k2 : Z) (frag : R * R) :
  pixel (with_offsets (waveOffset1 w + 720 * IZR k1) (waveOffset2 w + 720 * IZR k2) w) frag
  = pixel w frag.
Proof. apply (pixel_phase_shift w _ k1 k2); reflexivity. Qed.

(** X5: when [N] ticks advance both phases by whole multiples of 720, the
    animation repeats every [N] ticks: the frame after [n + N] ticks is the
    frame after [n] ticks.  With the default speeds 2.6 and 32 this is the
    case for [N = 3600]. *)
Theorem animation_period (w : MainWindow) (s1 s2 : R) (N : nat) (k1 k2 : Z)
    (n : nat) (frag : R * R) :
  config w !! "waveSpeed1" = Some (Num s1) ->
  config w !! "waveSpeed2" = Some (Num s2) ->
  INR N * s1 = 720 * IZR k1 ->
  INR N * s2 = 720 * IZR k2 ->
  exists wa wb : MainWindow,
    ticks n w = Some wa /\ ticks (n + N) w = Some wb /\ pixel wb frag = pixel wa frag.
Proof.
  intros H1 H2 E1 E2.
  eexists; eexists. split; [apply (ticks_from n w s1 s2 H1 H2) |].
  split; [apply (ticks_from (n + N) w s1 s2 H1 H2) |].
  apply (pixel_phase_shift _ _ k1 k2); simpl; [reflexivity | |];
    rewrite plus_INR; lra.
Qed.

Lemma animation_period_witness :
  config MainWindow_init !! "waveSpeed1" = Some (Num 2.6) /\
  config MainWindow_init !! "waveSpeed2" = Some (Num 32) /\
  INR 3600 * 2.6 = 720 * IZR 13 /\
  INR 3600 * 32 = 720 * IZR 160 /\
  exists wa wb : MainWindow,
    ticks 7 MainWindow_init = Some wa /\ ticks (7 + 3600) MainWindow_init = Some wb /\
    pixel wb (0.5, 200.5) = pixel wa (0.5, 200.5).
Proof.
  assert (H1 : config MainWindow_init !! "waveSpeed1" = Some (Num 2.6)) by reflexivity.
  assert (H2 : config MainWindow_init !! "waveSpeed2" = Some (Num 32)) by reflexivity.
  assert (EN : INR 3600 = 3600)
    by (rewrite INR_IZR_INZ; f_equal; vm_compute; reflexivity).
  assert (E1 : INR 3600 * 2.6 = 720 * IZR 13) by (rewrite EN; lra).
  assert (E2 : INR 3600 * 32 = 720 * IZR 160) by (rewrite EN; lra).
  split; [exact H1 |]. split; [exact H2 |]. split; [exact E1 |]. split; [exact E2 |].
  exact (animation_period MainWindow_init 2.6 32 3600 13 160 7 (0.5, 200.5) H1 H2 E1 E2).
Defined.

(** ** Edits and the frame *)



(** X7: an edit of a wave speed does not touch the current frame nor the
    phase offsets; the new speed enters with the next tick only, which adds
    it to the offset as it is (and the unchanged [waveSpeed2] to the other
    offset). *)
Theorem speed_edit_continues (w : MainWindow) (v s2 : R) (frag : R * R) :
  config w !! "waveSpeed2" = Some (Num s2) ->
  pixel (changeValue "waveSpeed1" v w) frag = pixel w frag /\
  waveOffset1 (changeValue "waveSpeed1" v w) = waveOffset1 w /\
  waveOffset2 (changeValue "waveSpeed1" v w) = waveOffset2 w /\
  exists w' : MainWindow,
    updateWaves (changeValue "waveSpeed1" v w) = Some w' /\
    waveOffset1 w' = waveOffset1 w + v /\
    waveOffset2 w' = waveOffset2 w + s2.
Proof.
  intros H2. split; [| split; [reflexivity | split; [reflexivity |]]].
  - unfold pixel, paintGL, changeValue, update, setattr; simpl.
    rewrite !lookup_insert_ne by done. reflexivity.
  - eexists. split.
    + apply (updateWaves_step (changeValue "waveSpeed1" v w) v s2).
      * apply lookup_insert_eq.
      * unfold changeValue, update, setattr; simpl.
        rewrite lookup_insert_ne by done. exact H2.
    + split; reflexivity.
Qed.

Lemma speed_edit_continues_witness :
  config MainWindow_init !! "waveSpeed2" = Some (Num 32) /\
  pixel (changeValue "waveSpeed1" 10 MainWindow_init) (0.5, 200.5)
  = pixel MainWindow_init (0.5, 200.5) /\
  exists w' : MainWindow,
    updateWaves (changeValue "waveSpeed1" 10 MainWindow_init) = Some w' /\
    waveOffset1 w' = waveOffset1 MainWindow_init + 10 /\
    waveOffset2 w' = waveOffset2 MainWindow_init + 32.
Proof.
  assert (H2 : config MainWindow_init !! "waveSpeed2" = Some (Num 32)) by reflexivity.
  destruct (speed_edit_continues MainWindow_init 10 32 (0.5, 200.5) H2)
    as (Hframe & _ & _ & Htick).
  split; [exact H2 |]. split; [exact Hframe | exact Htick].
Defined.

(** Ticks compose: [n + m] ticks are [n] ticks followed by [m] ticks, and
    a run that raises within the first [n] ticks raises. *)
Lemma ticks_add (n m : nat) (w : MainWindow) :
  ticks (n + m) w = ticks n w ≫= ticks m.
Proof.
  revert w. induction n as [| n IH]; intros w; [reflexivity |].
  cbn [Nat.add ticks]. destruct (updateWaves w) as [w' |]; simpl; [apply IH | reflexivity].
Qed.

(** X8: of two edits of the same attribute the later one wins, and edits of
    different attributes can be made in either order. *)
Theorem edits_compose (w : MainWindow) (name other : string) (v1 v2 : R) :
  config (changeValue name v2 (changeValue name v1 w)) = config (changeValue name v2 w) /\
  (name <> other ->
   config (changeValue other v2 (changeValue name v1 w))
   = config (changeValue name v1 (changeValue other v2 w))).
Proof.
  unfold changeValue, update, setattr; simpl. split.
  - apply insert_insert_eq.
  - intros Hne. apply insert_insert_ne. congruence.
Qed.

Lemma edits_compose_witness :
  "baseHeight" <> "borderWidth" /\
  config (changeValue "borderWidth" 7 (changeValue "baseHeight" 120 MainWindow_init))
  = config (changeValue "baseHeight" 120 (changeValue "borderWidth" 7 MainWindow_init)).
Proof.
  assert (Hne : "baseHeight" <> "borderWidth") by discriminate.
  split; [exact Hne |].
  exact (proj2 (edits_compose MainWindow_init "baseHeight" "borderWidth" 120 7) Hne).
Defined.

(** ** Reset and the edits *)

(** [reset] lays the defaults over whatever attributes the object has. *)
Lemma reset_union (self : gmap string value) : reset self = WaveConfig ∪ self.
Proof.
  unfold WaveConfig, reset. cbv zeta.
  rewrite <- !insert_union_l. rewrite (left_id ∅ (∪)). reflexivity.
Qed.

Lemma reset_insert (self : gmap string value) (name : string) (v : value) :
  is_Some (WaveConfig !! name) -> reset (<[name := v]> self) = reset self.
Proof.
  intros Hd. rewrite !reset_union. apply map_eq. intros k.
  destruct (decide (k = name)) as [-> | Hne].
  - rewrite !lookup_union_l' by exact Hd. reflexivity.
  - rewrite !lookup_union, lookup_insert_ne by congruence. reflexivity.
Qed.

(** X9: [reset] undoes every edit the panel can make: resetting after an
    edit of a row of [settings] or of [colors] gives what resetting before
    the edit gives; resetting twice is resetting once; an attribute that is
    none of the twelve is left as it is. *)
Theorem reset_absorbs_edits (w : MainWindow) :
  (forall (s : setting) (v : R),
     s ∈ settings -> reset (config (changeValue (attr s) v w)) = reset (config w)) /\
  (forall (c : string * string) (color : vec3),
     c ∈ colors -> reset (config (changeColor c.2 color w)) = reset (config w)) /\
  reset (reset (config w)) = reset (config w) /\
  (forall name : string,
     WaveConfig !! name = None -> reset (config w) !! name = config w !! name).
Proof.
  destruct (well_formed_reset ∅) as [Hn Hc]. fold WaveConfig in Hn, Hc.
  pose proof (proj1 (Forall_forall _ _) Hn) as Hn'.
  pose proof (proj1 (Forall_forall _ _) Hc) as Hc'.
  clear Hn Hc. rename Hn' into Hn, Hc' into Hc. cbv beta in Hn, Hc.
  split; [| split; [| split]].
  - intros s v Hs. apply reset_insert. destruct (Hn s Hs) as [r ->]. eexists; reflexivity.
  - intros c color Hin. apply reset_insert. destruct (Hc c Hin) as [col ->]. eexists; reflexivity.
  - rewrite !reset_union. apply map_eq. intros k. rewrite !lookup_union.
    destruct (WaveConfig !! k), (config w !! k); reflexivity.
  - intros name Hnone. rewrite reset_union. apply lookup_union_r. exact Hnone.
Qed.

Lemma reset_absorbs_edits_witness :
  WaveConfig !! "waveOffset1" = None /\
  reset (config (changeValue "baseHeight" 120 MainWindow_init)) = reset (config MainWindow_init) /\
  reset (config MainWindow_init) !! "waveOffset1" = config MainWindow_init !! "waveOffset1".
Proof.
  assert (Hnone : WaveConfig !! "waveOffset1" = None) by reflexivity.
  assert (Hs : Build_setting "Base height" "baseHeight" (-100) 300 1 1 ∈ settings)
    by (unfold settings; apply list_elem_of_here).
  destruct (reset_absorbs_edits MainWindow_init) as (Hv & _ & _ & Hf).
  split; [exact Hnone |]. split; [exact (Hv _ 120 Hs) | exact (Hf "waveOffset1" Hnone)].
Defined.

(** ** What makes a slot raise *)

(** X10: [paintGL] raises exactly when one of the seven numbers or three
    colours it reads is missing or of the other kind (the wave speeds are
    not among them); [updateWaves] raises exactly when one of the two wave
    speeds is not a number. *)
Theorem slots_raise_iff (w : MainWindow) :
  (is_Some (paintGL w) <-> paintable (config w)) /\
  (is_Some (updateWaves w) <->
   (exists s1 : R, config w !! "waveSpeed1" = Some (Num s1)) /\
   (exists s2 : R, config w !! "waveSpeed2" = Some (Num s2))).
Proof.
  split; split.
  - intros [u Hu].
    destruct (paintGL_inv w u Hu)
      as (H1 & H2 & H3 & (? & H4 & _) & (? & H5 & _) & _ & _ & H6 & H7 & H8 & H9 & H10).
    unfold paintable. repeat split; eauto.
  - intros ([? H1] & [? H2] & [? H3] & [? H4] & [? H5] & [? H6] & [? H7]
            & [? H8] & [? H9] & [? H10]).
    unfold paintGL. rewrite H1, H2, H3, H4, H5, H6, H7, H8, H9, H10. simpl.
    eexists; reflexivity.
  - intros [w' Hw']. unfold updateWaves in Hw'.
    destruct (config w !! "waveSpeed1") as [[s1|?]|]; simpl in Hw'; try discriminate Hw'.
    destruct (config w !! "waveSpeed2") as [[s2|?]|]; simpl in Hw'; try discriminate Hw'.
    split; eexists; reflexivity.
  - intros [[s1 H1] [s2 H2]]. rewrite (updateWaves_step w s1 s2 H1 H2). eexists; reflexivity.
Qed.

Lemma slots_raise_iff_witness :
  paintable (config MainWindow_init) /\ is_Some (paintGL MainWindow_init).
Proof.
  assert (Hp : paintable (config MainWindow_init))
    by (unfold paintable; repeat split; eexists; reflexivity).
  split; [exact Hp |].
  exact (proj2 (proj1 (slots_raise_iff MainWindow_init)) Hp).
Defined.

(** ** Invariants of the event loop *)

Lemma within_ranges_init : within_ranges WaveConfig.
Proof.
  unfold within_ranges, WaveConfig, reset, settings.
  repeat constructor; simpl; eexists; (split; [by simplify_map_eq | lra]).
Qed.

Lemma unit_colors_init : unit_colors WaveConfig.
Proof.
  unfold unit_colors, WaveConfig, reset, colors.
  repeat constructor; simpl; eexists;
    (split; [by simplify_map_eq | unfold unit_color; simpl; lra]).
Qed.

(** No two rows of [settings] are for the same attribute. *)
Lemma settings_attr_inj (s s' : setting) :
  s ∈ settings -> s' ∈ settings -> attr s = attr s' -> s = s'.
Proof.
  intros Hs Hs'. apply list_elem_of_In in Hs, Hs'. simpl in Hs, Hs'.
  repeat (destruct Hs as [<- | Hs]; [| try contradiction]);
    repeat (destruct Hs' as [<- | Hs']; [| try contradiction]);
    simpl; intros E; (reflexivity || discriminate E).
Qed.

Lemma updateWaves_config (w w' : MainWindow) :
  updateWaves w = Some w' -> config w' = config w.
Proof.
  unfold updateWaves. intros H.
  destruct (config w !! "waveSpeed1") as [[?|?]|]; simpl in H; try discriminate H.
  destruct (config w !! "waveSpeed2") as [[?|?]|]; simpl in H; try discriminate H.
  injection H as <-. reflexivity.
Qed.

Lemma within_ranges_changeValue (s : setting) (v : R) (w : MainWindow) :
  s ∈ settings -> minimum s <= v <= maximum s ->
  within_ranges (config w) -> within_ranges (config (changeValue (attr s) v w)).
Proof.
  intros Hs Hv Hr. unfold within_ranges in *. unfold changeValue, update, setattr; simpl.
  apply Forall_forall. intros s' Hs'.
  destruct (proj1 (Forall_forall _ _) Hr s' Hs') as (r & Hr1 & Hr2).
  destruct (decide (attr s = attr s')) as [E | Hne].
  - assert (s = s') as <- by (apply settings_attr_inj; assumption).
    exists v. split; [apply lookup_insert_eq | exact Hv].
  - exists r. split; [rewrite lookup_insert_ne; assumption | exact Hr2].
Qed.

Lemma within_ranges_changeColor (c : string * string) (color : vec3) (w : MainWindow) :
  c ∈ colors ->
  within_ranges (config w) -> within_ranges (config (changeColor c.2 color w)).
Proof.
  intros Hin Hr. unfold within_ranges in *. unfold changeColor, update, setattr; simpl.
  apply Forall_forall. intros s Hs.
  destruct (proj1 (Forall_forall _ _) Hr s Hs) as (r & Hr1 & Hr2).
  exists r. split; [| exact Hr2].
  rewrite lookup_insert_ne; [assumption |].
  exact (proj1 (Forall_forall _ _)
           (proj1 (Forall_forall _ _) settings_not_colors s Hs) c Hin).
Qed.

Lemma unit_colors_changeValue (s : setting) (v : R) (w : MainWindow) :
  s ∈ settings ->
  unit_colors (config w) -> unit_colors (config (changeValue (attr s) v w)).
Proof.
  intros Hs Hu. unfold unit_colors in *. unfold changeValue, update, setattr; simpl.
  apply Forall_forall. intros c Hin.
  destruct (proj1 (Forall_forall _ _) Hu c Hin) as (col & Hc1 & Hc2).
  exists col. split; [| exact Hc2].
  rewrite lookup_insert_ne; [assumption |]. intros E.
  exact (proj1 (Forall_forall _ _)
           (proj1 (Forall_forall _ _) settings_not_colors s Hs) c Hin (eq_sym E)).
Qed.

Lemma unit_colors_changeColor (name : string) (color : vec3) (w : MainWindow) :
  unit_color color ->
  unit_colors (config w) -> unit_colors (config (changeColor name color w)).
Proof.
  intros Hcol Hu. unfold unit_colors in *. unfold changeColor, update, setattr; simpl.
  apply Forall_forall. intros c Hin.
  destruct (proj1 (Forall_forall _ _) Hu c Hin) as (col & Hc1 & Hc2).
  destruct (decide (name = c.2)) as [-> | Hne].
  - exists color. split; [apply lookup_insert_eq | exact Hcol].
  - exists col. split; [rewrite lookup_insert_ne; assumption | exact Hc2].
Qed.

(** A property of the configuration that implies [well_formed] and that
    every slot keeps, for the events that satisfy [ok], holds after every
    run of such events, and no such run raises. *)
Section Exec_invariant.

Variable Inv : gmap string value -> Prop.
Variable ok : event -> Prop.

Hypothesis Inv_well_formed : forall cfg, Inv cfg -> well_formed cfg.
Hypothesis Inv_valueChanged :
  forall s v w, ok (valueChanged s v) -> Inv (config w) ->
                Inv (config (changeValue (attr s) v w)).
Hypothesis Inv_clicked :
  forall c color w, ok (clicked c (Some color)) -> Inv (config w) ->
                    Inv (config (changeColor c.2 color w)).

Lemma dispatch_invariant (e : event) (w : MainWindow) :
  ok e -> Inv (config w) ->
  exists w' : MainWindow, dispatch e w = Some w' /\ Inv (config w').
Proof.
  intros He Hi. destruct e as [| s v | c [color |]]; simpl.
  - destruct (updateWaves_total w (Inv_well_formed _ Hi)) as (w' & Hw' & Hc).
    exists w'. split; [exact Hw' | rewrite Hc; exact Hi].
  - eexists. split; [reflexivity | apply Inv_valueChanged; assumption].
  - eexists. split; [reflexivity | apply Inv_clicked; assumption].
  - exists w. split; [reflexivity | exact Hi].
Qed.

Lemma exec_invariant (events : list event) (w : MainWindow) :
  Forall ok events -> Inv (config w) ->
  exists w' : MainWindow, exec events w = Some w' /\ Inv (config w').
Proof.
  intros Hok. revert w. induction Hok as [| e events He _ IH]; intros w Hi.
  - exists w. split; [reflexivity | exact Hi].
  - destruct (dispatch_invariant e w He Hi) as (w1 & Hd & Hi1).
    destruct (IH w1 Hi1) as (w' & Hx & Hi').
    exists w'. split; [| exact Hi']. simpl. rewrite Hd. exact Hx.
Qed.

End Exec_invariant.

(** X11: no run of events of the panel (timer ticks, edits in its spin
    boxes, answers of its colour dialogs) makes a slot raise; the
    configuration stays well formed, and every pixel of the frame painted
    after the run gets a colour. *)
Theorem exec_never_raises (events : list event) (frag : R * R) :
  Forall from_panel events ->
  exists w' : MainWindow,
    exec events MainWindow_init = Some w' /\
    well_formed (config w') /\ is_Some (pixel w' frag).
Proof.
  intros Hev.
  destruct (exec_invariant well_formed from_panel) with (events := events) (w := MainWindow_init)
    as (w' & Hx & Hwf).
  - intros cfg H; exact H.
  - intros s v w Hs Hw. apply well_formed_changeValue; assumption.
  - intros c color w Hc Hw. apply well_formed_changeColor; assumption.
  - exact Hev.
  - apply well_formed_reset.
  - exists w'. split; [exact Hx |]. split; [exact Hwf | apply pixel_total; exact Hwf].
Qed.

Lemma exec_never_raises_witness :
  Forall from_panel [timeout; clicked ("Wave color", "waveColor") None; timeout] /\
  exists w' : MainWindow,
    exec [timeout; clicked ("Wave color", "waveColor") None; timeout] MainWindow_init = Some w' /\
    well_formed (config w') /\ is_Some (pixel w' (0.5, 200.5)).
Proof.
  assert (Hev : Forall from_panel
                  [timeout; clicked ("Wave color", "waveColor") None; timeout]).
  { constructor; [exact I |].
    constructor; [simpl; unfold colors; set_solver |].
    constructor; [exact I | constructor]. }
  split; [exact Hev |].
  exact (exec_never_raises _ (0.5, 200.5) Hev).
Defined.

(** X12: as long as every spin box reports values within the range given
    to it, every number of the configuration stays within the range of its
    row of [settings]; so [borderWidth] and [borderGradient] reach the
    shader as numbers between 0 and 30. *)
Theorem exec_within_ranges (events : list event) :
  Forall from_panel events -> Forall in_range events ->
  exists (w' : MainWindow) (u : FS.Uniforms),
    exec events MainWindow_init = Some w' /\
    within_ranges (config w') /\
    paintGL w' = Some u /\
    0 <= FS.borderWidth u <= 30 /\ 0 <= FS.borderGradient u <= 30.
Proof.
  intros Hp Hr.
  destruct (exec_invariant (fun cfg => well_formed cfg /\ within_ranges cfg)
              (fun e => from_panel e /\ in_range e))
    with (events := events) (w := MainWindow_init) as (w' & Hx & Hwf & Hin).
  - intros cfg [H _]; exact H.
  - intros s v w [Hs Hv] [Hw Hi]. split.
    + apply well_formed_changeValue; assumption.
    + apply within_ranges_changeValue; assumption.
  - intros c color w [Hc _] [Hw Hi]. split.
    + apply well_formed_changeColor; assumption.
    + apply within_ranges_changeColor; assumption.
  - apply Forall_and. split; assumption.
  - split; [apply well_formed_reset | exact within_ranges_init].
  - destruct (paintGL_total w' Hwf) as [u Hu].
    exists w', u. split; [exact Hx |]. split; [exact Hin |]. split; [exact Hu |].
    destruct (paintGL_inv w' u Hu) as (_ & _ & _ & _ & _ & _ & _ & Hbw & Hbg & _).
    pose proof (proj1 (Forall_forall _ _) Hin) as Hall.
    split.
    + destruct (Hall (Build_setting "Border width" "borderWidth" 0 30 1 1))
        as (r & Hr1 & Hr2); [apply list_elem_of_In; simpl; tauto |].
      simpl in Hr1, Hr2. rewrite Hbw in Hr1. injection Hr1 as ->. exact Hr2.
    + destruct (Hall (Build_setting "Border gradient" "borderGradient" 0 30 1 1))
        as (r & Hr1 & Hr2); [apply list_elem_of_In; simpl; tauto |].
      simpl in Hr1, Hr2. rewrite Hbg in Hr1. injection Hr1 as ->. exact Hr2.
Qed.

Lemma exec_within_ranges_witness :
  Forall from_panel
    [valueChanged (Build_setting "Border gradient" "borderGradient" 0 30 1 1) 0; timeout] /\
  Forall in_range
    [valueChanged (Build_setting "Border gradient" "borderGradient" 0 30 1 1) 0; timeout] /\
  exists (w' : MainWindow) (u : FS.Uniforms),
    exec [valueChanged (Build_setting "Border gradient" "borderGradient" 0 30 1 1) 0; timeout]
      MainWindow_init = Some w' /\
    within_ranges (config w') /\
    paintGL w' = Some u /\
    0 <= FS.borderWidth u <= 30 /\ 0 <= FS.borderGradient u <= 30.
Proof.
  assert (Hp : Forall from_panel
                 [valueChanged (Build_setting "Border gradient" "borderGradient" 0 30 1 1) 0;
                  timeout]).
  { constructor; [simpl; unfold settings; set_solver |].
    constructor; [exact I | constructor]. }
  assert (Hr : Forall in_range
                 [valueChanged (Build_setting "Border gradient" "borderGradient" 0 30 1 1) 0;
                  timeout]).
  { constructor; [simpl; lra |].
    constructor; [exact I | constructor]. }
  split; [exact Hp |]. split; [exact Hr |].
  exact (exec_within_ranges _ Hp Hr).
Defined.

(** X13: as long as every picked colour has its components in [0,1], so has
    every pixel of every frame the window paints. *)
Theorem exec_unit_colors (events : list event) (frag : R * R) :
  Forall from_panel events -> Forall picks_unit_color events ->
  exists (w' : MainWindow) (color : vec3),
    exec events MainWindow_init = Some w' /\
    pixel w' frag = Some color /\ unit_color color.
Proof.
  intros Hp Hu.
  destruct (exec_invariant (fun cfg => well_formed cfg /\ unit_colors cfg)
              (fun e => from_panel e /\ picks_unit_color e))
    with (events := events) (w := MainWindow_init) as (w' & Hx & Hwf & Hun).
  - intros cfg [H _]; exact H.
  - intros s v w [Hs _] [Hw Hi]. split.
    + apply well_formed_changeValue; assumption.
    + apply unit_colors_changeValue; assumption.
  - intros c color w [Hc Hcol] [Hw Hi]. split.
    + apply well_formed_changeColor; assumption.
    + apply unit_colors_changeColor; assumption.
  - apply Forall_and. split; assumption.
  - split; [apply well_formed_reset | exact unit_colors_init].
  - destruct (pixel_total w' frag Hwf) as [color Hcolor].
    exists w', color. split; [exact Hx |]. split; [exact Hcolor |].
    unfold pixel in Hcolor.
    destruct (paintGL w') as [u |] eqn:Hu'; simpl in Hcolor; [| discriminate Hcolor].
    destruct (paintGL_inv w' u Hu') as (_ & _ & _ & _ & _ & _ & _ & _ & _ & Hb & Hw & Hd).
    pose proof (proj1 (Forall_forall _ _) Hun) as Hall.
    assert (forall name col, (name ∈ snd <$> colors) ->
              config w' !! name = Some (Color col) -> unit_color col) as Hget.
    { intros name col Hin Hl. apply list_elem_of_fmap in Hin as (c & -> & Hc).
      destruct (Hall c Hc) as (col' & Hl' & Hcol'). rewrite Hl in Hl'.
      injection Hl' as <-. exact Hcol'. }
    apply (main_unit_color u frag color).
    + apply (Hget "backgroundColor"); [unfold colors; set_solver | exact Hb].
    + apply (Hget "waveColor"); [unfold colors; set_solver | exact Hw].
    + apply (Hget "borderColor"); [unfold colors; set_solver | exact Hd].
    + exact Hcolor.
Qed.

Lemma exec_unit_colors_witness :
  Forall from_panel [clicked ("Wave color", "waveColor") (Some (Vec3 0 0.5 1)); timeout] /\
  Forall picks_unit_color
    [clicked ("Wave color", "waveColor") (Some (Vec3 0 0.5 1)); timeout] /\
  exists (w' : MainWindow) (color : vec3),
    exec [clicked ("Wave color", "waveColor") (Some (Vec3 0 0.5 1)); timeout] MainWindow_init
    = Some w' /\
    pixel w' (0.5, 200.5) = Some color /\ unit_color color.
Proof.
  assert (Hp : Forall from_panel
                 [clicked ("Wave color", "waveColor") (Some (Vec3 0 0.5 1)); timeout]).
  { constructor; [simpl; unfold colors; set_solver |].
    constructor; [exact I | constructor]. }
  assert (Hu : Forall picks_unit_color
                 [clicked ("Wave color", "waveColor") (Some (Vec3 0 0.5 1)); timeout]).
  { constructor; [unfold picks_unit_color, unit_color; simpl; lra |].
    constructor; [exact I | constructor]. }
  split; [exact Hp |]. split; [exact Hu |].
  exact (exec_unit_colors _ (0.5, 200.5) Hp Hu).
Defined.

(** ** Redraw requests *)

Lemma dispatch_updates (e : event) (w w' : MainWindow) :
  dispatch e w = Some w' ->
  updates w' = (updates w + (if requests_redraw e then 1 else 0))%nat.
Proof.
  destruct e as [| s v | c [color |]]; simpl; intros H.
  - unfold updateWaves in H.
    destruct (config w !! "waveSpeed1") as [[?|?]|]; simpl in H; try discriminate H.
    destruct (config w !! "waveSpeed2") as [[?|?]|]; simpl in H; try discriminate H.
    injection H as <-. simpl. lia.
  - injection H as <-. simpl. lia.
  - injection H as <-. simpl. lia.
  - injection H as <-. lia.
Qed.

(** X14: a run of events requests exactly one redraw for each timer tick,
    each spin-box edit and each accepted colour, and none for a cancelled
    colour dialog. *)
Theorem exec_updates (events : list event) (w w' : MainWindow) :
  exec events w = Some w' ->
  updates w' = (updates w + length (List.filter requests_redraw events))%nat.
Proof.
  revert w. induction events as [| e events IH]; intros w H.
  - injection H as <-. simpl. lia.
  - cbn [exec] in H. destruct (dispatch e w) as [w1 |] eqn:Hd; simpl in H; [| discriminate H].
    rewrite (IH w1 H), (dispatch_updates e w w1 Hd). simpl.
    destruct (requests_redraw e); simpl; lia.
Qed.

Lemma exec_updates_witness :
  exec [clicked ("Wave color", "waveColor") None;
        valueChanged (Build_setting "Base height" "baseHeight" (-100) 300 1 1) 120]
    MainWindow_init
  = Some (changeValue "baseHeight" 120 MainWindow_init) /\
  updates (changeValue "baseHeight" 120 MainWindow_init) = 1%nat.
Proof.
  assert (H : exec [clicked ("Wave color", "waveColor") None;
                    valueChanged (Build_setting "Base height" "baseHeight" (-100) 300 1 1) 120]
                MainWindow_init
              = Some (changeValue "baseHeight" 120 MainWindow_init)) by reflexivity.
  split; [exact H |].
  exact (exec_updates _ _ _ H).
Defined.

(** ** The quad *)

(** X15: the draw call of [paintGL] draws two triangles which together
    cover exactly the square [-1, 1] x [-1, 1] of normalized device
    coordinates, the whole viewport: the shader runs for every pixel of the
    widget. *)
Theorem quad_covers_viewport :
  exists t1 t2 : (vec3 * R) * (vec3 * R) * (vec3 * R),
    glDrawArrays 0 6 = Some [t1; t2] /\
    forall px py : R,
      (-1 <= px <= 1 /\ -1 <= py <= 1) <-> (covers t1 px py \/ covers t2 px py).
Proof.
  eexists; eexists. split; [reflexivity |].
  intros px py. unfold covers; simpl. split.
  - intros [Hx Hy]. destruct (Rle_dec (px + py) 0) as [Hs | Hs].
    + left. exists (- (px + py) / 2), ((py + 1) / 2), ((px + 1) / 2).
      repeat split; lra.
    + right. exists ((px + py) / 2), ((1 - py) / 2), ((1 - px) / 2).
      repeat split; lra.
  - intros [(la & lb & lc & Ha & Hb & Hc & Hs & -> & ->)
           | (la & lb & lc & Ha & Hb & Hc & Hs & -> & ->)]; lra.
Qed.

Lemma quad_covers_viewport_witness :
  -1 <= 0.25 <= 1 /\ -1 <= -0.5 <= 1 /\
  exists t1 t2 : (vec3 * R) * (vec3 * R) * (vec3 * R),
    glDrawArrays 0 6 = Some [t1; t2] /\ (covers t1 0.25 (-0.5) \/ covers t2 0.25 (-0.5)).
Proof.
  assert (Hx : -1 <= 0.25 <= 1) by lra.
  assert (Hy : -1 <= -0.5 <= 1) by lra.
  split; [exact Hx |]. split; [exact Hy |].
  destruct quad_covers_viewport as (t1 & t2 & Hd & Hc).
  exists t1, t2. split; [exact Hd |].
  exact (proj1 (Hc 0.25 (-0.5)) (conj Hx Hy)).
Defined.
